(** * whatsapp_group_analyser: a shallow embedding of [script.py]

    The script reads an exported chat transcript, folds every line into a
    handful of counters and prints a report.  This file embeds the parts of
    the script that decide how a line is parsed and classified, how the
    aggregator state evolves, and what the reporter prints, and proves
    properties of the embedding.

    Conventions
    - a Python [str] is a list of Unicode code points ([list N]);
    - a Python [int] is a [Z];
    - a [dict], [defaultdict] or [Counter] is an association list kept in
      insertion order (Python dictionaries iterate in insertion order, and
      the reporter's [sorted], [max] and [min] break ties by that order);
    - calls into the Python runtime whose result depends on tables that are
      not part of the script ([datetime.strptime], the [jdatetime] and
      [emoji] packages, [str.lower], the Unicode-aware [\W] class) are
      fields of a record [Runtime]; section [Analyser] is parametric in it,
      and module [Ref] gives two executable instances, one without and one
      with the optional packages;
    - the three files the script reads are its inputs here: the lines of the
      transcript and the two word sets, as the loader leaves them. *)

From Stdlib Require Import ZArith NArith List Bool Lia String Ascii.
From Stdlib Require Import Permutation Sorted.
Import ListNotations.
Open Scope Z_scope.

Set Implicit Arguments.

(** ** Strings *)

Definition char := N.
Definition str := list char.

(** ASCII literals. *)
Definition lit (s : string) : str :=
  List.map N_of_ascii (list_ascii_of_string s).

Definition dq : char := 34%N.   (* the double quote *)
Definition LF : char := 10%N.

Fixpoint str_eqb (a b : str) : bool :=
  match a, b with
  | [], [] => true
  | x :: a', y :: b' => N.eqb x y && str_eqb a' b'
  | _, _ => false
  end.

Definition is_empty (s : str) : bool :=
  match s with [] => true | _ => false end.

(** [len(s)] *)
Definition len (s : str) : Z := Z.of_nat (List.length s).

(** [s.startswith(p)] *)
Fixpoint starts_with (p s : str) : bool :=
  match p, s with
  | [], _ => true
  | x :: p', y :: s' => N.eqb x y && starts_with p' s'
  | _ :: _, [] => false
  end.

(** [sub in s] *)
Fixpoint contains (sub s : str) : bool :=
  starts_with sub s ||
  match s with
  | [] => false
  | _ :: s' => contains sub s'
  end.

(** [s.split(sep, 1)] when [sep] occurs in [s]: the text before the first
    occurrence and the text after it; [None] when [sep] does not occur
    (Python then returns the one-element list [[s]]). *)
Fixpoint split1 (sep s : str) : option (str * str) :=
  if starts_with sep s then Some ([], skipn (List.length sep) s)
  else match s with
       | [] => None
       | c :: s' =>
           match split1 sep s' with
           | Some (a, b) => Some (c :: a, b)
           | None => None
           end
       end.

(** [str.isspace] on one code point: the characters [str.strip()] and
    [str.split()] treat as white space. *)
Definition isspace (c : char) : bool :=
  ((9 <=? c) && (c <=? 13) || (28 <=? c) && (c <=? 32) ||
   (c =? 133) || (c =? 160) || (c =? 5760) ||
   (8192 <=? c) && (c <=? 8202) || (c =? 8232) || (c =? 8233) ||
   (c =? 8239) || (c =? 8287) || (c =? 12288))%N.

Fixpoint lstrip (s : str) : str :=
  match s with
  | c :: s' => if isspace c then lstrip s' else s
  | [] => []
  end.

Definition rstrip (s : str) : str := rev (lstrip (rev s)).

(** [s.strip()] *)
Definition strip (s : str) : str := rstrip (lstrip s).

(** [s.split()]: the maximal runs of non-space characters. *)
Fixpoint split_ws_aux (cur : str) (s : str) : list str :=
  match s with
  | [] => if is_empty cur then [] else [rev cur]
  | c :: s' =>
      if isspace c
      then (if is_empty cur then split_ws_aux [] s'
            else rev cur :: split_ws_aux [] s')
      else split_ws_aux (c :: cur) s'
  end.

Definition split_ws (s : str) : list str := split_ws_aux [] s.

(** Python truthiness of a value that is [None] or a [str]. *)
Definition truthy_str (o : option str) : bool :=
  match o with
  | Some s => negb (is_empty s)
  | None => false
  end.

(** ** Regular expressions

    The script compiles two patterns with [re.I] and applies them with
    [Pattern.match], which anchors at the start of the subject and explores
    alternatives in the order a backtracking matcher does: a lazy repetition
    first tries to stop, a greedy one first tries to go on, the left branch
    of an alternation comes first.  [rx] is that matcher, in
    continuation-passing style; a match yields the captured groups and the
    unread rest of the subject. *)

Module Re.

Inductive regex :=
| Eps
| Chr (c : char)                   (* a literal, compared under re.I *)
| Cls (p : char -> bool)           (* one character of a class *)
| Cat (a b : regex)
| Alt (a b : regex)
| Opt (a : regex)                  (* greedy  a?  *)
| LazyStar (p : char -> bool)      (* c*?  for a class c *)
| GreedyStar (p : char -> bool)    (* c*   for a class c *)
| Grp (i : nat) (a : regex)        (* capturing group number i *)
| Bol                              (* ^ *)
| Eol.                             (* $ *)

(** [.] without [re.S]: anything but a line feed. *)
Definition dot (c : char) : bool := negb (c =? LF)%N.

Definition is_upper (c : char) : bool := ((65 <=? c) && (c <=? 90))%N.
Definition is_lower (c : char) : bool := ((97 <=? c) && (c <=? 122))%N.
Definition ascii_lower (c : char) : char :=
  if is_upper c then (c + 32)%N else c.

(** The lower-casing the matcher applies to a subject character, restricted
    to what can reach an ASCII letter: the ASCII capitals, U+0130 (dotted
    capital I) and U+212A (Kelvin sign). *)
Definition sre_lower (x : char) : char :=
  if (x =? 304)%N then 105%N
  else if (x =? 8490)%N then 107%N
  else ascii_lower x.

(** A pattern literal [p] against a subject character [x] under [re.I].
    Uncased literals compare exactly; a letter compares lower-cased, and
    [i] and [s] also accept their case-equivalents U+0131 and U+017F. *)
Definition ci_match (p x : char) : bool :=
  if is_upper p || is_lower p then
    let lo := ascii_lower p in
    ((sre_lower x =? lo) ||
     (lo =? 105) && (x =? 305) ||
     (lo =? 115) && (x =? 383))%N
  else (x =? p)%N.

Definition caps := list (nat * str).

Fixpoint set_group (i : nat) (v : str) (c : caps) : caps :=
  match c with
  | [] => [(i, v)]
  | (j, w) :: c' => if Nat.eqb i j then (i, v) :: c' else (j, w) :: set_group i v c'
  end.

(** [m.group(i)] for a group that took part in the match. *)
Fixpoint group (c : caps) (i : nat) : str :=
  match c with
  | [] => []
  | (j, w) :: c' => if Nat.eqb i j then w else group c' i
  end.

Definition result := option (caps * str).

Fixpoint lazy_star (p : char -> bool) (k : str -> result) (s : str) : result :=
  match k s with
  | Some m => Some m
  | None =>
      match s with
      | x :: s' => if p x then lazy_star p k s' else None
      | [] => None
      end
  end.

Fixpoint greedy_star (p : char -> bool) (k : str -> result) (s : str) : result :=
  match s with
  | x :: s' =>
      if p x then
        match greedy_star p k s' with
        | Some m => Some m
        | None => k s
        end
      else k s
  | [] => k s
  end.

(** [n0] is the length of the whole subject, so that [Bol] can tell whether
    anything has been read. *)
Fixpoint rx (n0 : nat) (r : regex) (s : str) (c : caps)
            (k : str -> caps -> result) : result :=
  match r with
  | Eps => k s c
  | Chr p =>
      match s with
      | x :: s' => if ci_match p x then k s' c else None
      | [] => None
      end
  | Cls p =>
      match s with
      | x :: s' => if p x then k s' c else None
      | [] => None
      end
  | Cat a b => rx n0 a s c (fun s' c' => rx n0 b s' c' k)
  | Alt a b =>
      match rx n0 a s c k with
      | Some m => Some m
      | None => rx n0 b s c k
      end
  | Opt a =>
      match rx n0 a s c k with
      | Some m => Some m
      | None => k s c
      end
  | LazyStar p => lazy_star p (fun s' => k s' c) s
  | GreedyStar p => greedy_star p (fun s' => k s' c) s
  | Grp i a =>
      rx n0 a s c
         (fun s' c' =>
            k s' (set_group i (firstn (List.length s - List.length s') s) c'))
  | Bol => if Nat.eqb (List.length s) n0 then k s c else None
  | Eol =>
      match s with
      | [] => k s c
      | [x] => if (x =? LF)%N then k s c else None
      | _ => None
      end
  end.

(** [pattern.match(s)]: the groups, and the text after the match. *)
Definition match_ (r : regex) (s : str) : result :=
  rx (List.length s) r s [] (fun s' c => Some (c, s')).

Fixpoint seq (rs : list regex) : regex :=
  match rs with
  | [] => Eps
  | [r] => r
  | r :: rs' => Cat r (seq rs')
  end.

(** A run of literal characters. *)
Definition word (s : string) : regex := seq (List.map Chr (lit s)).

End Re.

(** ** Constants of the script *)

Definition SEP : str := lit " - ".
Definition COLON : str := lit ":".
Definition MEDIA_TAG : str := lit "<Media omitted>".
Definition DELETED_TAG : str := lit "This message was deleted".
Definition UNNAMED : str := lit "(unnamed)".

(** [(.+?) created (?:group|this group) "?(.*?)"?$] *)
Definition RE_CREATED : Re.regex :=
  Re.seq
    [ Re.Grp 1 (Re.Cat (Re.Cls Re.dot) (Re.LazyStar Re.dot));
      Re.word " created ";
      Re.Alt (Re.word "group") (Re.word "this group");
      Re.word " ";
      Re.Opt (Re.Chr dq);
      Re.Grp 2 (Re.LazyStar Re.dot);
      Re.Opt (Re.Chr dq);
      Re.Eol ].

(** [^(.*?) - (.+?) changed the group name from "(.+?)" to "(.+?)"] *)
Definition RE_GROUP_RENAME : Re.regex :=
  Re.seq
    [ Re.Bol;
      Re.Grp 1 (Re.LazyStar Re.dot);
      Re.word " - ";
      Re.Grp 2 (Re.Cat (Re.Cls Re.dot) (Re.LazyStar Re.dot));
      Re.word " changed the group name from ";
      Re.Chr dq;
      Re.Grp 3 (Re.Cat (Re.Cls Re.dot) (Re.LazyStar Re.dot));
      Re.Chr dq;
      Re.word " to ";
      Re.Chr dq;
      Re.Grp 4 (Re.Cat (Re.Cls Re.dot) (Re.LazyStar Re.dot));
      Re.Chr dq ].

(** Persian weekday names, Saturday first:
    shanbe, yekshanbe, doshanbe, seshanbe, chaharshanbe, panjshanbe, jom'e. *)
Definition FA_WEEKDAYS : list str :=
  [ [1588; 1606; 1576; 1607];
    [1740; 1705; 1588; 1606; 1576; 1607];
    [1583; 1608; 1588; 1606; 1576; 1607];
    [1587; 1607; 8204; 1588; 1606; 1576; 1607];
    [1670; 1607; 1575; 1585; 1588; 1606; 1576; 1607];
    [1662; 1606; 1580; 8204; 1588; 1606; 1576; 1607];
    [1580; 1605; 1593; 1607] ]%N.

Definition EN_WEEKDAYS : list str :=
  List.map lit ["Mon"; "Tue"; "Wed"; "Thu"; "Fri"; "Sat"; "Sun"]%string.

(** [EMOJI_PATTERN = [\U0001F300-\U0001FAFF]] *)
Definition EMOJI_PATTERN (c : char) : bool :=
  ((127744 <=? c) && (c <=? 129791))%N.

(** ** Instants

    A [datetime] as the script reads it: the civil date and the wall-clock
    hour and minute (none of the four formats carries seconds). *)

Record datetime := mk_datetime {
  year : Z; month : Z; day : Z; hour : Z; minute : Z
}.

Definition is_leap (y : Z) : bool :=
  (y mod 4 =? 0) && (negb (y mod 100 =? 0) || (y mod 400 =? 0)).

Definition days_in_month (y m : Z) : Z :=
  if m =? 2 then (if is_leap y then 29 else 28)
  else if (m =? 4) || (m =? 6) || (m =? 9) || (m =? 11) then 30
  else 31.

(** What the [datetime] constructor accepts. *)
Definition valid_datetime (dt : datetime) : bool :=
  (1 <=? year dt) && (year dt <=? 9999) &&
  (1 <=? month dt) && (month dt <=? 12) &&
  (1 <=? day dt) && (day dt <=? days_in_month (year dt) (month dt)) &&
  (0 <=? hour dt) && (hour dt <=? 23) &&
  (0 <=? minute dt) && (minute dt <=? 59).

Definition days_before_year (y : Z) : Z :=
  let p := y - 1 in p * 365 + p / 4 - p / 100 + p / 400.

Definition days_before_month (y m : Z) : Z :=
  nth (Z.to_nat m) [0; 0; 31; 59; 90; 120; 151; 181; 212; 243; 273; 304; 334] 0
  + (if (2 <? m) && is_leap y then 1 else 0).

(** [date.toordinal()]: 1 for 0001-01-01. *)
Definition toordinal (dt : datetime) : Z :=
  days_before_year (year dt) + days_before_month (year dt) (month dt) + day dt.

(** [dt.weekday()]: Monday is 0, Sunday is 6. *)
Definition weekday (dt : datetime) : Z := (toordinal dt + 6) mod 7.

Inductive day_name := Mon | Tue | Wed | Thu | Fri | Sat | Sun.

(** The day of the week of an instant, read off [weekday]. *)
Definition day_of (dt : datetime) : day_name :=
  nth (Z.to_nat (weekday dt)) [Mon; Tue; Wed; Thu; Fri; Sat; Sun] Mon.

(** The Saturday-first numbering the histograms use. *)
Definition sat_first (d : day_name) : Z :=
  match d with
  | Sat => 0 | Sun => 1 | Mon => 2 | Tue => 3 | Wed => 4 | Thu => 5 | Fri => 6
  end.

(** Chronological order of two instants. *)
Definition minutes_of (dt : datetime) : Z :=
  (toordinal dt * 24 + hour dt) * 60 + minute dt.
Definition dt_ltb (a b : datetime) : bool := minutes_of a <? minutes_of b.

(** Decimal digits. *)
Definition digit (n : Z) : char := Z.to_N (48 + n mod 10).
Definition zfill2 (n : Z) : str := [digit (n / 10); digit n].
Definition zfill4 (n : Z) : str :=
  [digit (n / 1000); digit (n / 100); digit (n / 10); digit n].

(** [dt.strftime("%Y/%m/%d")], for a year of four digits. *)
Definition strftime_ymd (dt : datetime) : str :=
  zfill4 (year dt) ++ lit "/" ++ zfill2 (month dt) ++ lit "/" ++ zfill2 (day dt).

(** ** The runtime the script runs on *)

(** A [jdatetime.date]. *)
Record jdate := mk_jdate { jyear : Z; jmonth : Z; jday : Z }.

(** The part of the [jdatetime] package the script calls. *)
Record JalaliLib := {
  fromgregorian : datetime -> jdate;   (* jdatetime.date.fromgregorian(date=dt.date()) *)
  jweekday : jdate -> Z;               (* jd.weekday() *)
  jstrftime_ymd : jdate -> str         (* jd.strftime("%Y/%m/%d") *)
}.

Record Runtime := {
  (** [datetime.strptime(data, format)]; [None] stands for [ValueError]. *)
  strptime : str -> str -> option datetime;
  (** the [jdatetime] module, [None] when the import failed *)
  jdatetime : option JalaliLib;
  (** [emoji.EMOJI_DATA] membership of one character, [None] when the
      import failed *)
  emoji : option (char -> bool);
  (** [str.lower] *)
  lower : str -> str;
  (** [re.sub(r"[\W_]+", " ", s)] *)
  sub_nonword : str -> str
}.

(** What the script may rely on from the runtime: [strptime] only returns
    instants the [datetime] constructor accepts; the Jalali weekday of a date
    numbers the days of the week Saturday-first; a Jalali month is one of
    twelve. *)
Record RuntimeOk (rt : Runtime) : Prop := {
  strptime_valid :
    forall data fmt dt, strptime rt data fmt = Some dt -> valid_datetime dt = true;
  jalali_weekday :
    forall lib dt, jdatetime rt = Some lib -> valid_datetime dt = true ->
      jweekday lib (fromgregorian lib dt) = sat_first (day_of dt);
  jalali_month :
    forall lib dt, jdatetime rt = Some lib -> valid_datetime dt = true ->
      1 <= jmonth (fromgregorian lib dt) <= 12
}.

(** ** Dictionaries and counters *)

Section Dict.
Variables (K V : Type) (eqb : K -> K -> bool).

Definition dict := list (K * V).

(** [d.get(k)] *)
Fixpoint get (d : dict) (k : K) : option V :=
  match d with
  | [] => None
  | (j, v) :: d' => if eqb k j then Some v else get d' k
  end.

(** [d[k] = v]: in place when [k] is a key, at the end otherwise. *)
Fixpoint put (d : dict) (k : K) (v : V) : dict :=
  match d with
  | [] => [(k, v)]
  | (j, w) :: d' => if eqb k j then (j, v) :: d' else (j, w) :: put d' k v
  end.
End Dict.

Section Counter.
Variables (K : Type) (eqb : K -> K -> bool).

Definition counter := dict K Z.

(** [c[k]] on a [Counter] (or a [defaultdict(int)] that is only read):
    a missing key counts 0. *)
Definition count (c : counter) (k : K) : Z :=
  match get eqb c k with Some n => n | None => 0 end.

(** [c[k] += 1] *)
Definition incr (c : counter) (k : K) : counter :=
  put eqb c k (count c k + 1).

(** [c.update(keys)] *)
Definition incr_all (c : counter) (ks : list K) : counter :=
  fold_left incr ks c.

(** [sum(c.values())] *)
Definition total (c : counter) : Z :=
  fold_right (fun kv acc => snd kv + acc) 0 c.
End Counter.

(** ** Aggregator state *)

Record user_rec := {
  messages : Z; media : Z; deleted : Z; bad_word : Z;
  char_sum : Z; word_sum : Z;
  first_ts : option datetime; last_ts : option datetime
}.

(** The [defaultdict] factory of [user_stats]. *)
Definition new_user : user_rec :=
  {| messages := 0; media := 0; deleted := 0; bad_word := 0;
     char_sum := 0; word_sum := 0; first_ts := None; last_ts := None |}.

Record group_rec := {
  created_ts : option str; created_by : option str; created_name : option str
}.

Definition rename_rec : Type := str * str * str * str.  (* date, changer, old, new *)

Record state := {
  user_stats : dict str user_rec;
  hour_counts : counter Z;
  weekday_counts : counter Z;
  month_counts : counter Z;
  word_freq_global : counter str;
  emoji_freq_global : counter char;
  media_per_day : counter str;
  messages_per_day : counter str;
  group_info : group_rec;
  group_renames : list rename_rec
}.

Definition init : state :=
  {| user_stats := []; hour_counts := []; weekday_counts := [];
     month_counts := []; word_freq_global := []; emoji_freq_global := [];
     media_per_day := []; messages_per_day := [];
     group_info := {| created_ts := None; created_by := None; created_name := None |};
     group_renames := [] |}.

(** How the main loop disposes of the payload of a line. *)
Inductive line_class :=
| UserMessage (sender message : str)
| GroupCreated (creator name : str)
| GroupRenamed (ts_raw changer old_name new_name : str)
| Ignored.

(** The four [strptime] formats, in the order [parse_timestamp] lists them. *)
Definition formats : list str :=
  [ lit "%m/%d/%y, %I:%M %p";
    lit "%d/%m/%y, %I:%M %p";
    lit "%m/%d/%y, %H:%M";
    lit "%d/%m/%y, %H:%M" ].

Section Analyser.
Variable rt : Runtime.
Variables bad_words stop_words : list str.

(** The [for fmt in formats] loop of [parse_timestamp]. *)
Fixpoint try_formats (data : str) (fs : list str) : option datetime :=
  match fs with
  | [] => None
  | fmt :: fs' =>
      match strptime rt data fmt with
      | Some dt => Some dt
      | None => try_formats data fs'
      end
  end.

Definition parse_timestamp (raw_ts : str) : option datetime :=
  try_formats (strip raw_ts) formats.

Definition format_jalali_date (dt : datetime) : str * Z * Z :=
  match jdatetime rt with
  | None =>
      let weekday_idx := weekday dt in
      let weekday_idx := (weekday_idx + 2) mod 7 in
      (strftime_ymd dt, weekday_idx, month dt)
  | Some lib =>
      let jd := fromgregorian lib dt in
      let weekday_idx := jweekday lib jd in
      (jstrftime_ymd lib jd, weekday_idx, jmonth jd)
  end.

(** Lines 194-210: the two system-message patterns, the first on the
    payload [content], the second on the whole line [raw]. *)
Definition system_event (raw content : str) : line_class :=
  match Re.match_ RE_CREATED content with
  | Some (m, _) =>
      GroupCreated (strip (Re.group m 1))
                   (let n := strip (Re.group m 2) in
                    if is_empty n then UNNAMED else n)
  | None =>
      match Re.match_ RE_GROUP_RENAME raw with
      | Some (m, _) =>
          GroupRenamed (Re.group m 1) (Re.group m 2) (Re.group m 3) (Re.group m 4)
      | None => Ignored
      end
  end.

(** Lines 158-210: which branch of the loop body takes the payload.  A
    payload with a colon never reaches the system-message patterns: it is
    a user message, or, when nothing but white space precedes the colon,
    the iteration ends at line 163. *)
Definition classify (raw content : str) : line_class :=
  if contains COLON content then
    match split1 COLON content with
    | Some (sender, message) =>
        let sender := strip sender in
        let message := strip message in
        if is_empty sender then Ignored
        else UserMessage sender message
    | None => Ignored
    end
  else system_event raw content.

(** [any(bw in message for bw in bad_words)], behind the test that the
    set is not empty. *)
Definition bad_word_hit (message : str) : bool :=
  negb (match bad_words with [] => true | _ => false end) &&
  existsb (fun bw => contains bw message) bad_words.

Definition in_list (w : str) (ws : list str) : bool :=
  existsb (str_eqb w) ws.

(** Lines 181-182. *)
Definition words_of (message : str) : list str :=
  let clean := lower rt (sub_nonword rt message) in
  filter (fun w => negb (is_empty w) && negb (in_list w stop_words))
         (split_ws clean).

(** Lines 186-189. *)
Definition emoji_list (message : str) : list char :=
  match emoji rt with
  | Some emoji_data => filter emoji_data message
  | None => filter EMOJI_PATTERN message
  end.

(** Lines 165-178 on the record [s] of the sender. *)
Definition update_user (s : user_rec) (dt : datetime) (message : str) : user_rec :=
  {| messages := messages s + 1;
     media := if contains MEDIA_TAG message then media s + 1 else media s;
     deleted := if contains (lower rt DELETED_TAG) (lower rt message)
                then deleted s + 1 else deleted s;
     bad_word := if bad_word_hit message then bad_word s + 1 else bad_word s;
     char_sum := char_sum s + len message;
     word_sum := word_sum s + Z.of_nat (List.length (split_ws message));
     first_ts := match first_ts s with Some t => Some t | None => Some dt end;
     last_ts := Some dt |}.

(** [user_stats[sender]]: the record of [sender], a fresh one when there
    is none yet. *)
Definition user_of (us : dict str user_rec) (sender : str) : user_rec :=
  match get str_eqb us sender with
  | Some s => s
  | None => new_user
  end.

(** Lines 152-155: every line with a parsed timestamp is counted. *)
Definition count_line (st : state) (dt : datetime) (date_label : str)
           (weekday_idx month_num : Z) : state :=
  {| user_stats := user_stats st;
     hour_counts := incr Z.eqb (hour_counts st) (hour dt);
     weekday_counts := incr Z.eqb (weekday_counts st) weekday_idx;
     month_counts := incr Z.eqb (month_counts st) month_num;
     word_freq_global := word_freq_global st;
     emoji_freq_global := emoji_freq_global st;
     media_per_day := media_per_day st;
     messages_per_day := incr str_eqb (messages_per_day st) date_label;
     group_info := group_info st;
     group_renames := group_renames st |}.

(** Lines 165-191. *)
Definition on_user_message (st : state) (dt : datetime) (date_label : str)
           (sender message : str) : state :=
  {| user_stats :=
       put str_eqb (user_stats st) sender
           (update_user (user_of (user_stats st) sender) dt message);
     hour_counts := hour_counts st;
     weekday_counts := weekday_counts st;
     month_counts := month_counts st;
     word_freq_global := incr_all str_eqb (word_freq_global st) (words_of message);
     emoji_freq_global := incr_all N.eqb (emoji_freq_global st) (emoji_list message);
     media_per_day :=
       if contains MEDIA_TAG message
       then incr str_eqb (media_per_day st) date_label
       else media_per_day st;
     messages_per_day := messages_per_day st;
     group_info := group_info st;
     group_renames := group_renames st |}.

(** Lines 196-200. *)
Definition on_created (st : state) (date_label creator name : str) : state :=
  {| user_stats := user_stats st;
     hour_counts := hour_counts st;
     weekday_counts := weekday_counts st;
     month_counts := month_counts st;
     word_freq_global := word_freq_global st;
     emoji_freq_global := emoji_freq_global st;
     media_per_day := media_per_day st;
     messages_per_day := messages_per_day st;
     group_info := {| created_ts := Some date_label;
                      created_by := Some creator;
                      created_name := Some name |};
     group_renames := group_renames st |}.

(** Lines 205-209. *)
Definition on_renamed (st : state) (ts_raw changer old_name new_name : str) : state :=
  match parse_timestamp (strip ts_raw) with
  | Some dt_rename =>
      let '(rename_label, _, _) := format_jalali_date dt_rename in
      {| user_stats := user_stats st;
         hour_counts := hour_counts st;
         weekday_counts := weekday_counts st;
         month_counts := month_counts st;
         word_freq_global := word_freq_global st;
         emoji_freq_global := emoji_freq_global st;
         media_per_day := media_per_day st;
         messages_per_day := messages_per_day st;
         group_info := group_info st;
         group_renames :=
           group_renames st ++
           [(rename_label, strip changer, strip old_name, strip new_name)] |}
  | None => st
  end.

(** What a line contributes once its timestamp has parsed. *)
Definition apply_class (st : state) (dt : datetime) (date_label : str)
           (c : line_class) : state :=
  match c with
  | UserMessage sender message => on_user_message st dt date_label sender message
  | GroupCreated creator name => on_created st date_label creator name
  | GroupRenamed ts_raw changer old_name new_name =>
      on_renamed st ts_raw changer old_name new_name
  | Ignored => st
  end.

(** The timestamp and payload of a line the loop does not skip at lines
    144-150. *)
Definition parsed (raw : str) : option (datetime * str) :=
  if negb (contains SEP raw) then None
  else
    match split1 SEP raw with
    | Some (ts_part, content) =>
        match parse_timestamp ts_part with
        | Some dt => Some (dt, content)
        | None => None
        end
    | None => None
    end.

(** One iteration of the main loop. *)
Definition step (st : state) (raw : str) : state :=
  match parsed raw with
  | None => st
  | Some (dt, content) =>
      let '(date_label, weekday_idx, month_num) := format_jalali_date dt in
      let st := count_line st dt date_label weekday_idx month_num in
      apply_class st dt date_label (classify raw content)
  end.

(** The main loop over the lines of the transcript. *)
Definition run (lines : list str) : state := fold_left step lines init.

End Analyser.

(** ** The report

    What the reporter prints, one value per [print] call.  Fixed text is kept
    as text, without blank lines and column padding; a formatted line is kept
    as the values it formats.  A float average is kept as the exact quotient
    it rounds. *)

Inductive average :=
| Quot (num den : Z)      (* num / den *)
| NoAverage.              (* the literal 0 of the guard *)

Inductive out :=
| Rule (heavy : bool)                                   (* 100 box-drawing characters *)
| Text (s : str)
| UserRow (name : str) (msgs media_n del bad : Z) (avg_c avg_w : average)
| CreatedLine (ts creator name : option str)
| RenameRow (label changer old_name new_name : str)
| TotalLine (n : Z)
| MostMediaLine (d : str) (n : Z)
| MostActiveLine (d : str) (n : Z)
| LeastActiveLine (d : str) (n : Z)
| AverageLine (a : average)
| HourCell (h n : Z) (end_of_row : bool)
| WeekdayRow (name : str) (n : Z)
| MonthRow (m n : Z)
| WordRow (w : str) (n : Z)
| EmojiRow (e : char) (n : Z).

Inductive exn := ValueError | ZeroDivisionError.

(** A run of the reporter: everything printed, or what was printed before
    an exception ended the script. *)
Inductive outcome :=
| Printed (o : list out)
| Raised (e : exn) (o : list out).

Section Order.
Variable A : Type.
Variable key : A -> Z.

Fixpoint insert_desc (x : A) (l : list A) : list A :=
  match l with
  | [] => [x]
  | y :: l' => if key y <=? key x then x :: l else y :: insert_desc x l'
  end.

(** [sorted(l, key=key, reverse=True)]: stable, largest key first. *)
Definition sorted_desc (l : list A) : list A := fold_right insert_desc [] l.

(** [max(l, key=key)]: the first element with the largest key. *)
Definition max_by (l : list A) : option A :=
  match l with
  | [] => None
  | x :: l' => Some (fold_left (fun best y => if key best <? key y then y else best) l' x)
  end.

(** [min(l, key=key)]: the first element with the smallest key. *)
Definition min_by (l : list A) : option A :=
  match l with
  | [] => None
  | x :: l' => Some (fold_left (fun best y => if key y <? key best then y else best) l' x)
  end.
End Order.

(** [c.most_common(n)] *)
Definition most_common (K : Type) (n : nat) (c : counter K) : list (K * Z) :=
  firstn n (sorted_desc (@snd K Z) c).

(** [range(a, b)] *)
Definition range (a b : Z) : list Z :=
  List.map (fun i => a + Z.of_nat i) (List.seq 0 (Z.to_nat (b - a))).

Section Reporter.
Variable rt : Runtime.

(** [x / n if n else 0] *)
Definition avg (x n : Z) : average :=
  if n =? 0 then NoAverage else Quot x n.

(** Lines 217-220. *)
Definition user_row (kv : str * user_rec) : out :=
  let '(user, d) := kv in
  let avg_c := avg (char_sum d) (messages d) in
  let avg_w := avg (word_sum d) (messages d) in
  UserRow (firstn 22 user) (messages d) (media d) (deleted d) (bad_word d) avg_c avg_w.

Definition user_table (st : state) : list out :=
  [ Rule true;
    Text (lit "USER SUMMARY (sorted by messages)");
    Text (lit "Name | Msgs | Media | Del | Bad | AvgChars | AvgWords");
    Rule false ] ++
  List.map user_row (sorted_desc (fun kv => messages (snd kv)) (user_stats st)) ++
  [ Rule true ].

(** Lines 224-225. *)
Definition creation_lines (st : state) : list out :=
  let g := group_info st in
  if truthy_str (created_ts g)
  then [ CreatedLine (created_ts g) (created_by g) (created_name g) ]
  else [].

(** Lines 228-233. *)
Definition rename_lines (st : state) : list out :=
  Text (lit "Group Rename History:") ::
  match group_renames st with
  | [] => [ Text (lit "No renames detected.") ]
  | rs => List.map (fun r => let '(label, changer, old_name, new_name) := r in
                             RenameRow label changer old_name new_name) rs
  end.

(** Lines 236-247: [inl] the lines of the section, [inr] the exception
    raised while its values are computed. *)
Definition stats_lines (st : state) : list out + exn :=
  let total_msgs := total (hour_counts st) in
  if total_msgs =? 0 then inl []
  else
    let '(most_media_day, most_media_cnt) :=
      match max_by (@snd str Z) (media_per_day st) with
      | Some kv => kv
      | None => (lit "-", 0)
      end in
    match max_by (@snd str Z) (messages_per_day st),
          min_by (@snd str Z) (messages_per_day st) with
    | Some (max_day, max_count), Some (min_day, min_count) =>
        if Z.of_nat (List.length (messages_per_day st)) =? 0 then inr ZeroDivisionError
        else
          inl [ Text (lit "Overall Message Stats:");
                TotalLine total_msgs;
                MostMediaLine most_media_day most_media_cnt;
                MostActiveLine max_day max_count;
                LeastActiveLine min_day min_count;
                AverageLine (Quot total_msgs (Z.of_nat (List.length (messages_per_day st)))) ]
    | _, _ => inr ValueError
    end.

(** Lines 250-252. *)
Definition hour_lines (st : state) : list out :=
  Text (lit "Hourly Distribution (0" ++ [8209%N] ++ lit "23):") ::
  List.map (fun h => HourCell h (count Z.eqb (hour_counts st) h) (h mod 6 =? 5))
           (range 0 24).

(** Line 257. *)
Definition weekday_name (i : Z) : str :=
  match jdatetime rt with
  | Some _ => nth (Z.to_nat i) FA_WEEKDAYS []
  | None => nth (Z.to_nat ((i + 1) mod 7)) EN_WEEKDAYS []
  end.

(** Lines 255-258. *)
Definition weekday_lines (st : state) : list out :=
  Text (lit "Weekday Distribution:") ::
  List.map (fun i => WeekdayRow (weekday_name i) (count Z.eqb (weekday_counts st) i))
           (range 0 7).

(** Lines 261-263. *)
Definition month_lines (st : state) : list out :=
  Text (lit "Monthly Distribution:") ::
  List.map (fun m => MonthRow m (count Z.eqb (month_counts st) m)) (range 1 13).

(** Lines 266-268. *)
Definition word_lines (st : state) : list out :=
  Text (lit "Top 20 words (ex stop words):") ::
  List.map (fun kv => WordRow (fst kv) (snd kv)) (most_common 20 (word_freq_global st)).

(** Lines 271-274. *)
Definition emoji_lines (st : state) : list out :=
  match emoji_freq_global st with
  | [] => []
  | c => Text (lit "Top 20 emojis:") ::
         List.map (fun kv => EmojiRow (fst kv) (snd kv)) (most_common 20 c)
  end.

(** The reporting part of the script, lines 213-275. *)
Definition report (st : state) : outcome :=
  let head := user_table st ++ creation_lines st ++ rename_lines st in
  match stats_lines st with
  | inr e => Raised e head
  | inl stats =>
      Printed (head ++ stats ++ hour_lines st ++ weekday_lines st ++
               month_lines st ++ word_lines st ++ emoji_lines st ++ [ Rule true ])
  end.

End Reporter.

(** The whole script on the lines of a transcript. *)
Definition script (rt : Runtime) (bad_words stop_words lines : list str) : outcome :=
  report rt (run rt bad_words stop_words lines).

(** ** A reference runtime

    An executable instance of [Runtime], used to run the script on concrete
    transcripts.  [strptime] follows the way CPython's [_strptime] works for
    the directives the script uses: the format is turned into a regular
    expression, that expression is matched against the data under [re.I],
    nothing may remain unread, and the numbers found are handed to the
    [datetime] constructor.  Digits and letters are the ASCII ones. *)

Module Ref.

Import Re.

Definition between (a b : N) (c : char) : bool := ((a <=? c) && (c <=? b))%N.
Definition digit_cls : char -> bool := between 48%N 57%N.

(** [1[0-2]|0[1-9]|[1-9]], the expression of [%m] and [%I]. *)
Definition one_to_twelve : regex :=
  Alt (Cat (Chr 49%N) (Cls (between 48%N 50%N)))
      (Alt (Cat (Chr 48%N) (Cls (between 49%N 57%N))) (Cls (between 49%N 57%N))).

(** The group a directive fills: m 1, d 2, y 3, I 4, M 5, p 6, H 7. *)
Definition directive (d : char) : option regex :=
  if (d =? 109)%N then Some (Grp 1 one_to_twelve)                      (* %m *)
  else if (d =? 100)%N then                                             (* %d *)
    Some (Grp 2 (Alt (Cat (Chr 51%N) (Cls (between 48%N 49%N)))
                (Alt (Cat (Cls (between 49%N 50%N)) (Cls digit_cls))
                (Alt (Cat (Chr 48%N) (Cls (between 49%N 57%N)))
                (Alt (Cls (between 49%N 57%N))
                     (Cat (Chr 32%N) (Cls (between 49%N 57%N))))))))
  else if (d =? 121)%N then Some (Grp 3 (Cat (Cls digit_cls) (Cls digit_cls)))  (* %y *)
  else if (d =? 73)%N then Some (Grp 4 one_to_twelve)                  (* %I *)
  else if (d =? 77)%N then                                              (* %M *)
    Some (Grp 5 (Alt (Cat (Cls (between 48%N 53%N)) (Cls digit_cls)) (Cls digit_cls)))
  else if (d =? 112)%N then Some (Grp 6 (Alt (word "am") (word "pm")))  (* %p *)
  else if (d =? 72)%N then                                              (* %H *)
    Some (Grp 7 (Alt (Cat (Chr 50%N) (Cls (between 48%N 51%N)))
                (Alt (Cat (Cls (between 48%N 49%N)) (Cls digit_cls)) (Cls digit_cls))))
  else None.

(** The expression of a format: a directive becomes its expression, a run of
    white space becomes [\s+], any other character stands for itself. *)
Fixpoint compile (in_space : bool) (fmt : str) : option (list regex) :=
  match fmt with
  | [] => Some []
  | c :: fmt' =>
      if isspace c then
        match compile true fmt' with
        | Some rs =>
            if in_space then Some rs
            else Some (Cat (Cls isspace) (GreedyStar isspace) :: rs)
        | None => None
        end
      else if (c =? 37)%N then
        match fmt' with
        | d :: fmt'' =>
            match directive d, compile false fmt'' with
            | Some r, Some rs => Some (r :: rs)
            | _, _ => None
            end
        | [] => None
        end
      else
        match compile false fmt' with
        | Some rs => Some (Chr c :: rs)
        | None => None
        end
  end.

Fixpoint group_opt (c : caps) (i : nat) : option str :=
  match c with
  | [] => None
  | (j, w) :: c' => if Nat.eqb i j then Some w else group_opt c' i
  end.

(** [int(s)] for a string of digits, possibly after spaces. *)
Definition to_int (s : str) : Z :=
  fold_left (fun acc c => if digit_cls c then acc * 10 + (Z.of_N c - 48) else acc) s 0.

Definition int_group (c : caps) (i : nat) (default : Z) : Z :=
  match group_opt c i with
  | Some s => to_int s
  | None => default
  end.

(** The hour of the day from [%H], or from [%I] and [%p]. *)
Definition hour_of (c : caps) : Z :=
  match group_opt c 7, group_opt c 4 with
  | Some h, _ => to_int h
  | None, Some i =>
      let h := to_int i in
      let pm := match group_opt c 6 with
                | Some p => str_eqb (List.map ascii_lower p) (lit "pm")
                | None => false
                end in
      if pm then (if h =? 12 then 12 else h + 12)
      else (if h =? 12 then 0 else h)
  | None, None => 0
  end.

(** The year of a two-digit [%y]: 69-99 are 1969-1999, 00-68 are 2000-2068. *)
Definition year_of (c : caps) : Z :=
  match group_opt c 3 with
  | Some y => let n := to_int y in if n <=? 68 then 2000 + n else 1900 + n
  | None => 1900
  end.

Definition strptime (data fmt : str) : option datetime :=
  match compile false fmt with
  | None => None
  | Some rs =>
      match match_ (seq rs) data with
      | Some (c, rest) =>
          if is_empty rest then
            let dt := mk_datetime (year_of c) (int_group c 1 1) (int_group c 2 1)
                                  (hour_of c) (int_group c 5 0) in
            if valid_datetime dt then Some dt else None
          else None
      | None => None
      end
  end.

(** [str.lower] on ASCII. *)
Definition lower (s : str) : str := List.map ascii_lower s.

(** [\w] on ASCII letters and digits; a code point above 127 counts as a
    word character unless it is white space or in the emoji block. *)
Definition word_char (c : char) : bool :=
  digit_cls c || is_upper c || is_lower c ||
  ((128 <=? c)%N && negb (isspace c) && negb (EMOJI_PATTERN c)).

(** [re.sub(r"[\\W_]+", " ", s)] *)
Fixpoint sub_nonword_aux (in_run : bool) (s : str) : str :=
  match s with
  | [] => []
  | c :: s' =>
      if word_char c then c :: sub_nonword_aux false s'
      else if in_run then sub_nonword_aux true s'
      else 32%N :: sub_nonword_aux true s'
  end.

Definition sub_nonword (s : str) : str := sub_nonword_aux false s.

(** A Jalali converter by the 33-year cycle arithmetic: a cycle has 12053
    days, its years 0, 4, ..., 28 have 366 days and the others 365; day 0
    is 1 Farvardin 979, the Gregorian 20 March 1600. *)
Definition j_days_in_month : list Z := [31; 31; 31; 31; 31; 31; 30; 30; 30; 30; 30; 29].

Definition jalali_epoch : Z := toordinal (mk_datetime 1600 3 20 0 0).

(** The year within its cycle and the day within that year. *)
Definition year_in_cycle (r : Z) : Z * Z :=
  let q := r / 1461 in
  let r2 := r mod 1461 in
  if r2 <? 366 then (4 * q, r2)
  else (4 * q + (r2 - 1) / 365, (r2 - 1) mod 365).

Fixpoint month_day (dims : list Z) (m d : Z) : Z * Z :=
  match dims with
  | [] => (m, d)
  | n :: dims' => if d <? n then (m, d) else month_day dims' (m + 1) (d - n)
  end.

Definition date_in_cycle (r : Z) : Z * Z * Z :=
  let '(yy, doy) := year_in_cycle r in
  let '(m, d) := month_day (firstn 11 j_days_in_month) 1 doy in
  (yy, m, d + 1).

Definition from_days (n : Z) : jdate :=
  let '(yy, m, d) := date_in_cycle (n mod 12053) in
  mk_jdate (979 + 33 * (n / 12053) + yy) m d.

Definition days_before_jmonth (m : Z) : Z :=
  fold_right Z.add 0 (firstn (Z.to_nat (m - 1)) j_days_in_month).

Definition days_in_cycle (yy m d : Z) : Z :=
  (yy / 4) * 1461
  + (if yy mod 4 =? 0 then 0 else 366 + (yy mod 4 - 1) * 365)
  + days_before_jmonth m + d - 1.

Definition to_days (jd : jdate) : Z :=
  let yy := jyear jd - 979 in
  (yy / 33) * 12053 + days_in_cycle (yy mod 33) (jmonth jd) (jday jd).

(** Day [r] of a cycle falls in one of its 33 years and one of the twelve
    months, and counts back to [r]. *)
Definition cycle_ok (r : Z) : bool :=
  let '(yy, m, d) := date_in_cycle r in
  (0 <=? yy) && (yy <? 33) && (1 <=? m) && (m <=? 12) &&
  (days_in_cycle yy m d =? r).

Definition jalali_lib : JalaliLib :=
  {| fromgregorian := fun dt => from_days (toordinal dt - jalali_epoch);
     jweekday := fun jd => (to_days jd + jalali_epoch + 1) mod 7;
     jstrftime_ymd := fun jd =>
       zfill4 (jyear jd) ++ lit "/" ++ zfill2 (jmonth jd) ++ lit "/" ++ zfill2 (jday jd) |}.

(** Neither [jdatetime] nor [emoji] installed. *)
Definition plain : Runtime :=
  Build_Runtime strptime None None lower sub_nonword.

(** Both packages installed; the emoji table is a stand-in that knows the
    pictograph blocks and the older symbol blocks. *)
Definition full : Runtime :=
  Build_Runtime strptime (Some jalali_lib)
                (Some (fun c => EMOJI_PATTERN c || between 9728%N 10175%N c))
                lower sub_nonword.

End Ref.



(** ** Vocabulary of the statements *)

(** The elements of [l] on which [f] is defined, in order. *)
Definition choose (A B : Type) (f : A -> option B) (l : list A) : list B :=
  flat_map (fun x => match f x with Some y => [y] | None => [] end) l.

(** The sum of the buckets of a histogram that the reporter prints. *)
Definition bucket_sum (c : counter Z) (keys : list Z) : Z :=
  fold_right (fun k acc => count Z.eqb c k + acc) 0 keys.

Definition is_some (A : Type) (o : option A) : bool :=
  match o with Some _ => true | None => false end.

(** The decision order as the specification words it: a user message when
    the payload has a colon and the text before it is not blank; otherwise
    the group-created pattern on the payload; otherwise the group-renamed
    pattern on the whole line; otherwise nothing. *)
Definition classify_spec (raw content : str) : line_class :=
  match split1 COLON content with
  | Some (prefix, suffix) =>
      if negb (is_empty (strip prefix))
      then UserMessage (strip prefix) (strip suffix)
      else system_event raw content
  | None => system_event raw content
  end.

(** The two orders of day and month and the two clocks of a timestamp. *)
Inductive date_order := MonthDay | DayMonth.
Inductive clock := Clock12 | Clock24.

Definition format_of (o : date_order) (c : clock) : str :=
  match o with
  | MonthDay => lit "%m/%d"
  | DayMonth => lit "%d/%m"
  end ++ lit "/%y, " ++
  match c with
  | Clock12 => lit "%I:%M %p"
  | Clock24 => lit "%H:%M"
  end.

(** The English name of a day, as the fallback table of line 257 abbreviates
    it. *)
Definition english_name (d : day_name) : str :=
  match d with
  | Mon => lit "Mon" | Tue => lit "Tue" | Wed => lit "Wed" | Thu => lit "Thu"
  | Fri => lit "Fri" | Sat => lit "Sat" | Sun => lit "Sun"
  end.

(** The day a Saturday-first bucket stands for. *)
Definition day_of_bucket (i : Z) : day_name :=
  nth (Z.to_nat i) [Sat; Sun; Mon; Tue; Wed; Thu; Fri] Sat.

Section Vocabulary.
Variable rt : Runtime.

(** The line has the separator and the text before it parses. *)
Definition has_timestamp (raw : str) : bool :=
  contains SEP raw &&
  match split1 SEP raw with
  | Some (ts_part, _) => is_some (parse_timestamp rt ts_part)
  | None => false
  end.

(** The creation record a line writes, when it is a group-created line. *)
Definition line_creation (raw : str) : option group_rec :=
  match parsed rt raw with
  | Some (dt, content) =>
      match classify raw content with
      | GroupCreated creator name =>
          Some {| created_ts := Some (fst (fst (format_jalali_date rt dt)));
                  created_by := Some creator;
                  created_name := Some name |}
      | _ => None
      end
  | None => None
  end.

(** The creation records of the group-created lines, in transcript order. *)
Definition creations (lines : list str) : list group_rec :=
  choose line_creation lines.

(** The sender and the instant of a line that is a user message. *)
Definition line_user (raw : str) : option (str * datetime) :=
  match parsed rt raw with
  | Some (dt, content) =>
      match classify raw content with
      | UserMessage sender _ => Some (sender, dt)
      | _ => None
      end
  | None => None
  end.

(** The instants of the messages of [sender], in transcript order. *)
Definition user_times (lines : list str) (sender : str) : list datetime :=
  List.map snd (filter (fun p => str_eqb (fst p) sender) (choose line_user lines)).

(** The claim of the specification that the first creation line wins. *)
Definition first_creation_wins (bad_words stop_words lines : list str) : Prop :=
  forall g rest, creations lines = g :: rest ->
                 group_info (run rt bad_words stop_words lines) = g.

End Vocabulary.

(** The report of a transcript without a single parsed line. *)
Definition empty_report (rt : Runtime) : list out :=
  [ Rule true;
    Text (lit "USER SUMMARY (sorted by messages)");
    Text (lit "Name | Msgs | Media | Del | Bad | AvgChars | AvgWords");
    Rule false;
    Rule true;
    Text (lit "Group Rename History:");
    Text (lit "No renames detected.");
    Text (lit "Hourly Distribution (0" ++ [8209%N] ++ lit "23):") ] ++
  List.map (fun h => HourCell h 0 (h mod 6 =? 5)) (range 0 24) ++
  [ Text (lit "Weekday Distribution:") ] ++
  List.map (fun i => WeekdayRow (weekday_name rt i) 0) (range 0 7) ++
  [ Text (lit "Monthly Distribution:") ] ++
  List.map (fun m => MonthRow m 0) (range 1 13) ++
  [ Text (lit "Top 20 words (ex stop words):");
    Rule true ].

(** ** Example transcripts *)

Definition quoted (s : string) : str := [dq] ++ lit s ++ [dq].

(** A payload with a colon and nothing before it, whose text matches the
    group-created pattern. *)
Definition colon_first_content : str :=
  lit ": Bob created group " ++ quoted "Fun".
Definition colon_first_line : str :=
  lit "11/4/20, 9:53 AM - " ++ colon_first_content.

(** Two group-created lines. *)
Definition two_creations : list str :=
  [ lit "11/7/20, 9:53 AM - Alice created group " ++ quoted "First";
    lit "11/8/20, 9:54 AM - Bob created group " ++ quoted "Second" ].

(** Two messages of one sender, the later one first. *)
Definition out_of_order : list str :=
  [ lit "11/8/20, 9:00 AM - Alice: later";
    lit "11/7/20, 9:00 AM - Alice: earlier" ].

(** One message, sent on Saturday 7 November 2020. *)
Definition saturday_line : str :=
  lit "11/7/20, 9:53 AM - Alice: this is a badword example".

(** Lines without a timestamp the parser accepts. *)
Definition no_timestamps : list str :=
  [ lit "hello";
    lit "continued - text";
    lit "31/31/20, 9:53 AM - Alice: hi" ].

(** A user message, an unrecognised system line, a continuation line and a
    line whose timestamp does not parse. *)
Definition mixed_lines : list str :=
  [ lit "11/7/20, 9:53 AM - Alice: hello";
    lit "11/7/20, 21:10 - Messages are end-to-end encrypted";
    lit "and this continues the message";
    lit "31/31/20, 9:53 AM - Alice: hi" ].

(** ** The loader *)

(** The elements of a set built from a sequence, each once. *)
Fixpoint dedupe (ws : list str) : list str :=
  match ws with
  | [] => []
  | w :: ws' => if existsb (str_eqb w) ws' then dedupe ws' else w :: dedupe ws'
  end.

(** Lines 61-63: the blocklist from the lines of its file, [None] when the
    file does not exist. *)
Definition load_bad_words (file : option (list str)) : list str :=
  match file with
  | Some file_lines =>
      dedupe (List.map strip
                (filter (fun w => negb (is_empty (strip w))) file_lines))
  | None => []
  end.

(** Lines 65-67: the stop words, lower-cased. *)
Definition load_stop_words (rt : Runtime) (file : option (list str)) : list str :=
  match file with
  | Some file_lines =>
      dedupe (List.map (fun w => lower rt (strip w))
                (filter (fun w => negb (is_empty (strip w))) file_lines))
  | None => []
  end.

(** ** Vocabulary of the further statements *)

Definition sum_map (A : Type) (f : A -> Z) (l : list A) : Z :=
  fold_right (fun x acc => f x + acc) 0 l.

Definition count_if (A : Type) (p : A -> bool) (l : list A) : Z :=
  Z.of_nat (List.length (filter p l)).

(** [d.keys()] *)
Definition keys (K V : Type) (d : dict K V) : list K := List.map fst d.

(** The distinct elements of a sequence in the order of their first
    occurrence. *)
Definition add_key (ks : list str) (k : str) : list str :=
  if in_list k ks then ks else ks ++ [k].

Definition first_seen (l : list str) : list str := fold_left add_key l [].

(** A string with white space neither at its start nor at its end. *)
Definition no_edge_space (s : str) : Prop := lstrip s = s /\ rstrip s = s.

Section MoreVocabulary.
Variable rt : Runtime.

(** The sender and the body of a line that is a user message. *)
Definition line_message (raw : str) : option (str * str) :=
  match parsed rt raw with
  | Some (_, content) =>
      match classify raw content with
      | UserMessage sender message => Some (sender, message)
      | _ => None
      end
  | None => None
  end.

(** The bodies of the messages of [sender], in transcript order. *)
Definition user_bodies (lines : list str) (sender : str) : list str :=
  List.map snd (filter (fun p => str_eqb (fst p) sender) (choose line_message lines)).

(** The rename record a line appends, when it is a group-renamed line whose
    own timestamp text parses. *)
Definition line_rename (raw : str) : option rename_rec :=
  match parsed rt raw with
  | Some (_, content) =>
      match classify raw content with
      | GroupRenamed ts_raw changer old_name new_name =>
          match parse_timestamp rt (strip ts_raw) with
          | Some dt_rename =>
              Some (fst (fst (format_jalali_date rt dt_rename)),
                    strip changer, strip old_name, strip new_name)
          | None => None
          end
      | _ => None
      end
  | None => None
  end.

(** The number of lines with a parsed timestamp whose instant satisfies
    [p]. *)
Definition counted_with (p : datetime -> bool) (lines : list str) : Z :=
  count_if (fun raw => match parsed rt raw with
                       | Some (dt, _) => p dt
                       | None => false
                       end) lines.

End MoreVocabulary.

(** What holds of every entry of the word counter: the word is not a stop
    word, is not empty, and has been counted at least once. *)
Definition ranked (stop_words : list str) (kv : str * Z) : Prop :=
  in_list (fst kv) stop_words = false /\ fst kv <> [] /\ 1 <= snd kv.

(** A user record without its bad-word count. *)
Definition forget_bad_rec (d : user_rec) : user_rec :=
  {| messages := messages d; media := media d; deleted := deleted d;
     bad_word := 0; char_sum := char_sum d; word_sum := word_sum d;
     first_ts := first_ts d; last_ts := last_ts d |}.

(** The state without its bad-word counts. *)
Definition forget_bad (st : state) : state :=
  {| user_stats := List.map (fun kv => (fst kv, forget_bad_rec (snd kv))) (user_stats st);
     hour_counts := hour_counts st;
     weekday_counts := weekday_counts st;
     month_counts := month_counts st;
     word_freq_global := word_freq_global st;
     emoji_freq_global := emoji_freq_global st;
     media_per_day := media_per_day st;
     messages_per_day := messages_per_day st;
     group_info := group_info st;
     group_renames := group_renames st |}.

(** The state without its word frequencies. *)
Definition forget_words (st : state) : state :=
  {| user_stats := user_stats st;
     hour_counts := hour_counts st;
     weekday_counts := weekday_counts st;
     month_counts := month_counts st;
     word_freq_global := [];
     emoji_freq_global := emoji_freq_global st;
     media_per_day := media_per_day st;
     messages_per_day := messages_per_day st;
     group_info := group_info st;
     group_renames := group_renames st |}.

(** A transcript with messages of two senders, a media message, a system
    line, a creation and a rename. *)
Definition busy_lines : list str :=
  [ lit "11/7/20, 9:53 AM - Bob created group " ++ quoted "Fun";
    lit "11/7/20, 9:54 AM - Alice: hello there the world";
    lit "11/7/20, 9:55 AM - Bob: <Media omitted>";
    lit "11/8/20, 10:01 AM - Alice: the badword again";
    lit "11/8/20, 10:02 AM - Messages are end-to-end encrypted";
    lit "11/9/20, 10:03 AM - Bob changed the group name from " ++ quoted "Fun"
      ++ lit " to " ++ quoted "Games";
    lit "11/9/20, 10:04 AM - Alice: This message was deleted" ].

(** * Properties *)

(** ** Strings *)

Lemma str_eqb_eq (a b : str) : str_eqb a b = true <-> a = b.
Proof.
  revert b; induction a as [|x a IH]; intros [|y b]; simpl;
    try (split; [discriminate | congruence]); try tauto.
  rewrite andb_true_iff, N.eqb_eq, IH. split.
  - intros [-> ->]; reflexivity.
  - intros H; inversion H; auto.
Qed.

Lemma str_eqb_refl (a : str) : str_eqb a a = true.
Proof. apply str_eqb_eq; reflexivity. Qed.

Lemma str_eqb_neq (a b : str) : str_eqb a b = false <-> a <> b.
Proof.
  rewrite <- str_eqb_eq. destruct (str_eqb a b); split; congruence.
Qed.

Lemma starts_with_app (p s : str) : starts_with p (p ++ s) = true.
Proof.
  induction p as [|x p IH]; simpl; [reflexivity|].
  now rewrite N.eqb_refl, IH.
Qed.

Lemma contains_here (sub s : str) :
  starts_with sub s = true -> contains sub s = true.
Proof. intros H. destruct s; simpl; rewrite H; reflexivity. Qed.

Lemma contains_app (sub pre post : str) :
  contains sub (pre ++ sub ++ post) = true.
Proof.
  induction pre as [|c pre IH]; simpl.
  - apply contains_here, starts_with_app.
  - rewrite IH. apply orb_true_r.
Qed.

Lemma contains_split1 (sep s : str) :
  contains sep s = true <-> exists a b, split1 sep s = Some (a, b).
Proof.
  induction s as [|c s IH]; simpl.
  - destruct (starts_with sep []); simpl.
    + split; eauto.
    + split; [discriminate | intros (a & b & H); discriminate].
  - destruct (starts_with sep (c :: s)); simpl.
    + split; eauto.
    + rewrite IH. split.
      * intros (a & b & ->). eauto.
      * intros (a & b & H). destruct (split1 sep s) as [[a' b']|]; eauto.
Qed.

Lemma split1_none (sep s : str) :
  contains sep s = false <-> split1 sep s = None.
Proof.
  pose proof (contains_split1 sep s) as [H1 H2].
  destruct (contains sep s) eqn:C.
  - destruct (H1 eq_refl) as (a & b & ->). split; discriminate.
  - destruct (split1 sep s) as [[a b]|]; [|tauto].
    assert (false = true) by eauto. discriminate.
Qed.


Lemma starts_with_split (p s : str) :
  starts_with p s = true -> s = p ++ skipn (List.length p) s.
Proof.
  revert s; induction p as [|x p IH]; intros [|y s]; simpl; try discriminate;
    try reflexivity.
  rewrite andb_true_iff, N.eqb_eq. intros [-> H]. f_equal. now apply IH.
Qed.

(** [contains] is the raw substring test. *)
Lemma contains_iff (sub s : str) :
  contains sub s = true <-> exists pre post, s = pre ++ sub ++ post.
Proof.
  split.
  - induction s as [|c s IH]; simpl; rewrite orb_true_iff.
    + intros [H|H]; [|discriminate].
      exists [], []. destruct sub; [reflexivity | discriminate].
    + intros [H|H].
      * exists [], (skipn (List.length sub) (c :: s)).
        now apply starts_with_split.
      * destruct (IH H) as (pre & post & ->). now exists (c :: pre), post.
  - intros (pre & post & ->). apply contains_app.
Qed.

(** ** Dictionaries *)

Section DictFacts.
Variables (K V : Type) (eqb : K -> K -> bool).
Hypothesis eqb_eq : forall a b, eqb a b = true <-> a = b.

Lemma eqb_same (k : K) : eqb k k = true.
Proof. now apply eqb_eq. Qed.

Lemma eqb_diff (k j : K) : k <> j -> eqb k j = false.
Proof.
  intros H. destruct (eqb k j) eqn:E; [|reflexivity].
  apply eqb_eq in E. contradiction.
Qed.

Lemma get_put_same (d : dict K V) (k : K) (v : V) :
  get eqb (put eqb d k v) k = Some v.
Proof.
  induction d as [|[j w] d IH]; simpl.
  - now rewrite eqb_same.
  - destruct (eqb k j) eqn:E; simpl; rewrite E; [reflexivity | exact IH].
Qed.

Lemma get_put_other (d : dict K V) (k j : K) (v : V) :
  j <> k -> get eqb (put eqb d k v) j = get eqb d j.
Proof.
  intros N. induction d as [|[i w] d IH]; simpl.
  - now rewrite (eqb_diff N).
  - destruct (eqb k i) eqn:E; simpl.
    + apply eqb_eq in E; subst i. now rewrite (eqb_diff N).
    + destruct (eqb j i); [reflexivity | exact IH].
Qed.

Lemma Forall_put (Q : V -> Prop) (d : dict K V) (k : K) (v : V) :
  Forall (fun kv => Q (snd kv)) d -> Q v ->
  Forall (fun kv => Q (snd kv)) (put eqb d k v).
Proof.
  intros H Hv. induction d as [|[j w] d IH]; simpl.
  - constructor; [exact Hv | constructor].
  - inversion H; subst. destruct (eqb k j); constructor; auto.
Qed.

Lemma get_In (d : dict K V) (k : K) (v : V) :
  get eqb d k = Some v -> In (k, v) d.
Proof.
  induction d as [|[j w] d IH]; simpl; [discriminate|].
  destruct (eqb k j) eqn:E.
  - apply eqb_eq in E. intros [= ->]. left. now subst.
  - intros H. right. now apply IH.
Qed.
End DictFacts.

(** ** Counters *)

Lemma count_incr (c : counter Z) (k j : Z) :
  count Z.eqb (incr Z.eqb c k) j = count Z.eqb c j + (if j =? k then 1 else 0).
Proof.
  unfold incr, count at 1.
  destruct (Z.eqb_spec j k) as [->|N].
  - rewrite (get_put_same _ Z.eqb_eq). reflexivity.
  - rewrite (get_put_other _ Z.eqb_eq) by exact N. unfold count. lia.
Qed.

Lemma bucket_sum_incr (c : counter Z) (k : Z) (keys : list Z) :
  bucket_sum (incr Z.eqb c k) keys =
  bucket_sum c keys + Z.of_nat (count_occ Z.eq_dec keys k).
Proof.
  induction keys as [|j keys IH]; simpl; [reflexivity|].
  rewrite IH, count_incr.
  destruct (Z.eq_dec j k) as [->|N].
  - rewrite Z.eqb_refl. lia.
  - destruct (Z.eqb_spec j k); [contradiction | lia].
Qed.

Lemma count_occ_offsets (a k : Z) (s n : nat) :
  count_occ Z.eq_dec (List.map (fun i => a + Z.of_nat i) (List.seq s n)) k =
  if (a + Z.of_nat s <=? k) && (k <? a + Z.of_nat s + Z.of_nat n) then 1%nat else 0%nat.
Proof.
  revert s; induction n as [|n IH]; intros s.
  - simpl. destruct (Z.leb_spec (a + Z.of_nat s) k);
      destruct (Z.ltb_spec k (a + Z.of_nat s + 0)); simpl; try reflexivity; lia.
  - cbn [List.seq List.map count_occ]. rewrite IH.
    destruct (Z.eq_dec (a + Z.of_nat s) k) as [E|E];
      destruct (Z.leb_spec (a + Z.of_nat s) k);
      destruct (Z.leb_spec (a + Z.of_nat (S s)) k);
      destruct (Z.ltb_spec k (a + Z.of_nat (S s) + Z.of_nat n));
      destruct (Z.ltb_spec k (a + Z.of_nat s + Z.of_nat (S n)));
      simpl; try reflexivity; lia.
Qed.

Lemma count_occ_range (a b k : Z) :
  a <= k < b -> count_occ Z.eq_dec (range a b) k = 1%nat.
Proof.
  intros H. unfold range. rewrite count_occ_offsets.
  destruct (Z.leb_spec (a + Z.of_nat 0) k);
    destruct (Z.ltb_spec k (a + Z.of_nat 0 + Z.of_nat (Z.to_nat (b - a))));
    simpl; try reflexivity; lia.
Qed.

Lemma bucket_sum_incr_range (c : counter Z) (a b k : Z) :
  a <= k < b ->
  bucket_sum (incr Z.eqb c k) (range a b) = bucket_sum c (range a b) + 1.
Proof.
  intros H. now rewrite bucket_sum_incr, count_occ_range.
Qed.

(** ** The main loop, field by field *)

Lemma last_cons (A : Type) (x d : A) (l : list A) : last (x :: l) d = last l x.
Proof.
  revert x d; induction l as [|y l IH]; intros x d; [reflexivity|].
  change (last (x :: y :: l) d) with (last (y :: l) d).
  now rewrite !IH.
Qed.

Lemma has_timestamp_parsed (rt : Runtime) (raw : str) :
  has_timestamp rt raw = is_some (parsed rt raw).
Proof.
  unfold has_timestamp, parsed.
  destruct (contains SEP raw); simpl; [|reflexivity].
  destruct (split1 SEP raw) as [[ts content]|]; [|reflexivity].
  destruct (parse_timestamp rt ts); reflexivity.
Qed.

Section StepFacts.
Variable rt : Runtime.
Variables bad_words stop_words : list str.

Local Abbreviation step := (step rt bad_words stop_words).
Local Abbreviation apply_class := (apply_class rt bad_words stop_words).

Lemma apply_class_hists (st : state) (dt : datetime) (label : str) (c : line_class) :
  hour_counts (apply_class st dt label c) = hour_counts st /\
  weekday_counts (apply_class st dt label c) = weekday_counts st /\
  month_counts (apply_class st dt label c) = month_counts st.
Proof.
  destruct c; simpl; auto.
  unfold on_renamed. destruct (parse_timestamp rt (strip ts_raw)); auto.
  destruct (format_jalali_date rt d) as [[l w] m]. simpl. auto.
Qed.

Lemma apply_class_group (st : state) (dt : datetime) (label : str) (c : line_class) :
  group_info (apply_class st dt label c) =
  match c with
  | GroupCreated creator name =>
      {| created_ts := Some label; created_by := Some creator;
         created_name := Some name |}
  | _ => group_info st
  end.
Proof.
  destruct c; simpl; auto.
  unfold on_renamed. destruct (parse_timestamp rt (strip ts_raw)); auto.
  destruct (format_jalali_date rt d) as [[l w] m]. reflexivity.
Qed.

Lemma apply_class_users (st : state) (dt : datetime) (label : str) (c : line_class) :
  user_stats (apply_class st dt label c) =
  match c with
  | UserMessage sender message =>
      put str_eqb (user_stats st) sender
          (update_user rt bad_words (user_of (user_stats st) sender) dt message)
  | _ => user_stats st
  end.
Proof.
  destruct c; simpl; auto.
  unfold on_renamed. destruct (parse_timestamp rt (strip ts_raw)); auto.
  destruct (format_jalali_date rt d) as [[l w] m]. reflexivity.
Qed.

Lemma step_unparsed (st : state) (raw : str) :
  parsed rt raw = None -> step st raw = st.
Proof. intros H. unfold step. now rewrite H. Qed.

Lemma step_group (st : state) (raw : str) :
  group_info (step st raw) =
  match line_creation rt raw with
  | Some g => g
  | None => group_info st
  end.
Proof.
  unfold step, line_creation.
  destruct (parsed rt raw) as [[dt content]|]; [|reflexivity].
  destruct (format_jalali_date rt dt) as [[l w] m]. simpl.
  rewrite apply_class_group.
  destruct (classify raw content); reflexivity.
Qed.

Lemma step_users (st : state) (raw : str) :
  user_stats (step st raw) =
  match parsed rt raw with
  | Some (dt, content) =>
      match classify raw content with
      | UserMessage sender message =>
          put str_eqb (user_stats st) sender
              (update_user rt bad_words (user_of (user_stats st) sender) dt message)
      | _ => user_stats st
      end
  | None => user_stats st
  end.
Proof.
  unfold step.
  destruct (parsed rt raw) as [[dt content]|]; [|reflexivity].
  destruct (format_jalali_date rt dt) as [[l w] m].
  rewrite apply_class_users.
  destruct (classify raw content); reflexivity.
Qed.

Lemma step_hists (st : state) (raw : str) :
  match parsed rt raw with
  | Some (dt, _) =>
      let '(_, w, m) := format_jalali_date rt dt in
      hour_counts (step st raw) = incr Z.eqb (hour_counts st) (hour dt) /\
      weekday_counts (step st raw) = incr Z.eqb (weekday_counts st) w /\
      month_counts (step st raw) = incr Z.eqb (month_counts st) m
  | None => step st raw = st
  end.
Proof.
  unfold step.
  destruct (parsed rt raw) as [[dt content]|]; [|reflexivity].
  destruct (format_jalali_date rt dt) as [[l w] m].
  destruct (apply_class_hists (count_line st dt l w m) dt l (classify raw content))
    as (H1 & H2 & H3).
  rewrite H1, H2, H3. simpl. auto.
Qed.

Lemma run_snoc (lines : list str) (raw : str) :
  run rt bad_words stop_words (lines ++ [raw]) =
  step (run rt bad_words stop_words lines) raw.
Proof. unfold run. now rewrite fold_left_app. Qed.

End StepFacts.

(** ** Line classification *)

(** C1, as amended.  The loop body decides in this order: a payload with a
    colon is a user message when the text before the first colon is not
    blank, and is dropped without trying any pattern when it is blank; a
    payload without a colon is tried against the group-created pattern,
    then the whole line against the group-renamed pattern, and is ignored
    when neither matches.  So the code agrees with the order of the
    specification except on payloads whose colon has only white space
    before it. *)
Theorem classify_order (raw content : str) :
  classify raw content =
  match split1 COLON content with
  | Some (prefix, suffix) =>
      if is_empty (strip prefix) then Ignored
      else UserMessage (strip prefix) (strip suffix)
  | None =>
      match Re.match_ RE_CREATED content with
      | Some (m, _) =>
          GroupCreated (strip (Re.group m 1))
                       (if is_empty (strip (Re.group m 2)) then UNNAMED
                        else strip (Re.group m 2))
      | None =>
          match Re.match_ RE_GROUP_RENAME raw with
          | Some (m, _) =>
              GroupRenamed (Re.group m 1) (Re.group m 2) (Re.group m 3) (Re.group m 4)
          | None => Ignored
          end
      end
  end
  /\
  classify raw content =
  match split1 COLON content with
  | Some (prefix, _) =>
      if is_empty (strip prefix) then Ignored else classify_spec raw content
  | None => classify_spec raw content
  end.
Proof.
  unfold classify, classify_spec.
  destruct (contains COLON content) eqn:C.
  - apply contains_split1 in C. destruct C as (a & b & ->).
    destruct (is_empty (strip a)); split; reflexivity.
  - apply split1_none in C. rewrite C. split; reflexivity.
Qed.

(** C1, as stated, fails on a payload that starts with a colon: the
    group-created pattern matches it, the order of the specification makes
    it a creation event, and the loop drops it. *)
Lemma colon_first_is_dropped :
  split1 COLON colon_first_content
    = Some ([], lit " Bob created group " ++ quoted "Fun") /\
  system_event colon_first_line colon_first_content
    = GroupCreated (lit ": Bob") (lit "Fun") /\
  classify_spec colon_first_line colon_first_content
    = GroupCreated (lit ": Bob") (lit "Fun") /\
  classify colon_first_line colon_first_content = Ignored /\
  classify colon_first_line colon_first_content
    <> classify_spec colon_first_line colon_first_content /\
  group_info (run Ref.plain [] [] [colon_first_line]) = group_info init.
Proof.
  repeat split; try (vm_compute; reflexivity).
  vm_compute. discriminate.
Qed.

(** ** Group creation *)

Lemma creations_cons (rt : Runtime) (raw : str) (lines : list str) :
  creations rt (raw :: lines) =
  match line_creation rt raw with
  | Some g => g :: creations rt lines
  | None => creations rt lines
  end.
Proof.
  unfold creations, choose. simpl. destruct (line_creation rt raw); reflexivity.
Qed.

Lemma fold_group (rt : Runtime) (bad_words stop_words lines : list str) (st : state) :
  group_info (fold_left (step rt bad_words stop_words) lines st) =
  last (creations rt lines) (group_info st).
Proof.
  revert st; induction lines as [|raw lines IH]; intros st; [reflexivity|].
  simpl fold_left. rewrite IH, step_group, creations_cons.
  destruct (line_creation rt raw) as [g|]; [|reflexivity].
  now rewrite last_cons.
Qed.

(** C2, as amended.  Every group-created line overwrites the creation
    record: after the run it holds the fields of the last such line of the
    transcript, and is empty when there is none. *)
Theorem creation_last_wins (rt : Runtime) (bad_words stop_words lines : list str) :
  group_info (run rt bad_words stop_words lines) =
  last (creations rt lines) (group_info init).
Proof. apply fold_group. Qed.

(** C2, as stated, fails on a transcript with two group-created lines: the
    record ends up with the fields of the second. *)
Lemma second_creation_overwrites :
  creations Ref.plain two_creations =
    [ {| created_ts := Some (lit "2020/11/07"); created_by := Some (lit "Alice");
         created_name := Some (lit "First") |};
      {| created_ts := Some (lit "2020/11/08"); created_by := Some (lit "Bob");
         created_name := Some (lit "Second") |} ] /\
  group_info (run Ref.plain [] [] two_creations) =
    {| created_ts := Some (lit "2020/11/08"); created_by := Some (lit "Bob");
       created_name := Some (lit "Second") |} /\
  ~ first_creation_wins Ref.plain [] [] two_creations.
Proof.
  assert (E : creations Ref.plain two_creations =
    [ {| created_ts := Some (lit "2020/11/07"); created_by := Some (lit "Alice");
         created_name := Some (lit "First") |};
      {| created_ts := Some (lit "2020/11/08"); created_by := Some (lit "Bob");
         created_name := Some (lit "Second") |} ])
    by (vm_compute; reflexivity).
  split; [exact E|]. split; [vm_compute; reflexivity|].
  intros H. specialize (H _ _ E). vm_compute in H. discriminate.
Qed.

(** ** The calendar *)

Lemma weekday_range (dt : datetime) : 0 <= weekday dt < 7.
Proof. unfold weekday. apply Z.mod_pos_bound. lia. Qed.

Lemma sat_first_day_of (dt : datetime) :
  sat_first (day_of dt) = (weekday dt + 2) mod 7.
Proof.
  unfold day_of. pose proof (weekday_range dt) as R.
  set (w := weekday dt) in *.
  assert (C : w = 0 \/ w = 1 \/ w = 2 \/ w = 3 \/ w = 4 \/ w = 5 \/ w = 6) by lia.
  destruct C as [-> | [-> | [-> | [-> | [-> | [-> | ->]]]]]]; reflexivity.
Qed.

Lemma sat_first_range (d : day_name) : 0 <= sat_first d <= 6.
Proof. destruct d; simpl; lia. Qed.

Lemma sat_first_sat (d : day_name) : sat_first d = 0 <-> d = Sat.
Proof. destruct d; simpl; split; intros H; try discriminate; reflexivity. Qed.

Lemma sat_first_fri (d : day_name) : sat_first d = 6 <-> d = Fri.
Proof. destruct d; simpl; split; intros H; try discriminate; reflexivity. Qed.

Lemma valid_datetime_fields (dt : datetime) :
  valid_datetime dt = true ->
  1 <= month dt <= 12 /\ 0 <= hour dt <= 23 /\ 0 <= minute dt <= 59 /\
  1 <= day dt <= days_in_month (year dt) (month dt) /\ 1 <= year dt <= 9999.
Proof.
  unfold valid_datetime. rewrite !andb_true_iff, !Z.leb_le. tauto.
Qed.

Section CalendarFacts.
Variable rt : Runtime.
Hypothesis rt_ok : RuntimeOk rt.

Lemma parse_timestamp_valid (raw_ts : str) (dt : datetime) :
  parse_timestamp rt raw_ts = Some dt -> valid_datetime dt = true.
Proof.
  unfold parse_timestamp. generalize formats as fs.
  induction fs as [|fmt fs IH]; simpl; [discriminate|].
  destruct (strptime rt (strip raw_ts) fmt) as [d|] eqn:E; [|exact IH].
  intros [= <-]. exact (strptime_valid rt_ok _ _ E).
Qed.

Lemma parsed_valid (raw : str) (dt : datetime) (content : str) :
  parsed rt raw = Some (dt, content) -> valid_datetime dt = true.
Proof.
  unfold parsed. destruct (contains SEP raw); simpl; [|discriminate].
  destruct (split1 SEP raw) as [[ts c]|]; [|discriminate].
  destruct (parse_timestamp rt ts) as [d|] eqn:E; [|discriminate].
  intros [= <- _]. exact (parse_timestamp_valid _ E).
Qed.

Lemma format_jalali_date_spec (dt : datetime) :
  valid_datetime dt = true ->
  snd (fst (format_jalali_date rt dt)) = sat_first (day_of dt) /\
  1 <= snd (format_jalali_date rt dt) <= 12.
Proof.
  intros V. unfold format_jalali_date.
  destruct (jdatetime rt) as [lib|] eqn:J; simpl.
  - split.
    + exact (jalali_weekday rt_ok _ J V).
    + exact (jalali_month rt_ok _ J V).
  - split.
    + symmetry. apply sat_first_day_of.
    + apply (valid_datetime_fields dt V).
Qed.
End CalendarFacts.

(** ** The reference runtime meets the contract *)

Lemma ref_strptime_valid (data fmt : str) (dt : datetime) :
  Ref.strptime data fmt = Some dt -> valid_datetime dt = true.
Proof.
  unfold Ref.strptime.
  destruct (Ref.compile false fmt) as [rs|]; [|discriminate].
  destruct (Re.match_ (Re.seq rs) data) as [[c rest]|]; [|discriminate].
  destruct (is_empty rest); [|discriminate].
  match goal with |- context [valid_datetime ?d] => destruct (valid_datetime d) eqn:V end;
    [|discriminate].
  intros [= <-]. exact V.
Qed.

Lemma In_range (a b k : Z) : a <= k < b -> In k (range a b).
Proof.
  intros H. apply (count_occ_In Z.eq_dec). rewrite (count_occ_range H). lia.
Qed.

Lemma cycle_checked : forallb Ref.cycle_ok (range 0 12053) = true.
Proof. vm_compute. reflexivity. Qed.

Lemma cycle_ok_all (r : Z) : 0 <= r < 12053 -> Ref.cycle_ok r = true.
Proof.
  intros H. pose proof cycle_checked as C.
  rewrite forallb_forall in C. apply C. now apply In_range.
Qed.

Lemma jalali_month_range (n : Z) : 1 <= jmonth (Ref.from_days n) <= 12.
Proof.
  unfold Ref.from_days.
  assert (R : 0 <= n mod 12053 < 12053) by (apply Z.mod_pos_bound; lia).
  pose proof (cycle_ok_all R) as C. unfold Ref.cycle_ok in C.
  destruct (Ref.date_in_cycle (n mod 12053)) as [[yy m] d]. cbn [jyear jmonth jday].
  rewrite !andb_true_iff, !Z.leb_le in C. lia.
Qed.

Lemma jalali_round_trip (n : Z) : Ref.to_days (Ref.from_days n) = n.
Proof.
  unfold Ref.from_days, Ref.to_days.
  assert (R : 0 <= n mod 12053 < 12053) by (apply Z.mod_pos_bound; lia).
  pose proof (cycle_ok_all R) as C. unfold Ref.cycle_ok in C.
  destruct (Ref.date_in_cycle (n mod 12053)) as [[yy m] d]. cbn [jyear jmonth jday].
  rewrite !andb_true_iff, !Z.leb_le, Z.ltb_lt, Z.eqb_eq in C.
  destruct C as ((((Y0 & Y1) & _) & _) & D).
  replace (979 + 33 * (n / 12053) + yy - 979) with (yy + (n / 12053) * 33) by lia.
  rewrite Z.div_add, Z.mod_add by lia.
  rewrite Z.div_small, Z.mod_small by lia.
  rewrite D. pose proof (Z.div_mod n 12053). lia.
Qed.

Lemma ref_plain_ok : RuntimeOk Ref.plain.
Proof.
  constructor; simpl.
  - exact ref_strptime_valid.
  - discriminate.
  - discriminate.
Qed.

Lemma ref_full_ok : RuntimeOk Ref.full.
Proof.
  constructor; simpl.
  - exact ref_strptime_valid.
  - intros lib dt [= <-] _. simpl. rewrite jalali_round_trip, sat_first_day_of.
    unfold weekday. rewrite Z.add_mod_idemp_l by lia.
    replace (toordinal dt - Ref.jalali_epoch + Ref.jalali_epoch + 1)
      with (toordinal dt + 1) by lia.
    replace (toordinal dt + 6 + 2) with (toordinal dt + 1 + 1 * 7) by lia.
    now rewrite Z.mod_add by lia.
  - intros lib dt [= <-] _. simpl. apply jalali_month_range.
Qed.

(** ** Histograms *)

Lemma total_put (c : counter Z) (k : Z) :
  total (incr Z.eqb c k) = total c + 1.
Proof.
  unfold incr, count.
  induction c as [|[j n] c IH]; simpl; [lia|].
  destruct (Z.eqb k j) eqn:E; simpl; [lia|].
  simpl in IH. rewrite IH. lia.
Qed.

Section HistogramFacts.
Variable rt : Runtime.
Variables bad_words stop_words : list str.
Hypothesis rt_ok : RuntimeOk rt.

Lemma fold_hists (lines : list str) (st : state) :
  let st' := fold_left (step rt bad_words stop_words) lines st in
  let n := Z.of_nat (List.length (filter (has_timestamp rt) lines)) in
  bucket_sum (hour_counts st') (range 0 24)
    = bucket_sum (hour_counts st) (range 0 24) + n /\
  bucket_sum (weekday_counts st') (range 0 7)
    = bucket_sum (weekday_counts st) (range 0 7) + n /\
  bucket_sum (month_counts st') (range 1 13)
    = bucket_sum (month_counts st) (range 1 13) + n /\
  total (hour_counts st') = total (hour_counts st) + n.
Proof.
  revert st; induction lines as [|raw lines IH]; intros st.
  - simpl. lia.
  - cbn [fold_left filter].
    specialize (IH (step rt bad_words stop_words st raw)).
    cbv zeta in IH. destruct IH as (H1 & H2 & H3 & H4).
    rewrite H1, H2, H3, H4. clear H1 H2 H3 H4.
    rewrite (has_timestamp_parsed rt raw).
    pose proof (step_hists rt bad_words stop_words st raw) as S.
    destruct (parsed rt raw) as [[dt content]|] eqn:P.
    + pose proof (parsed_valid rt_ok _ P) as V.
      destruct (format_jalali_date_spec rt_ok dt V) as (W & M).
      destruct (valid_datetime_fields dt V) as (_ & Hh & _).
      pose proof (sat_first_range (day_of dt)) as SR.
      destruct (format_jalali_date rt dt) as [[l w] m]. simpl in W, M.
      destruct S as (-> & -> & ->).
      rewrite !bucket_sum_incr_range, total_put by lia.
      cbn [is_some List.length]. lia.
    + rewrite S. cbn [is_some]. lia.
Qed.
End HistogramFacts.

(** C3.  On a runtime that meets its contract, after any transcript the 24
    printed hour buckets, the 7 printed weekday buckets and the 12 printed
    month buckets each sum to the number of lines that contain the separator
    and whose timestamp text parses, whatever those lines are classified as
    afterwards; the total the reporter prints is the same number. *)
Theorem histogram_sums (rt : Runtime) (bad_words stop_words lines : list str) :
  RuntimeOk rt ->
  let st := run rt bad_words stop_words lines in
  let n := Z.of_nat (List.length (filter (has_timestamp rt) lines)) in
  bucket_sum (hour_counts st) (range 0 24) = n /\
  bucket_sum (weekday_counts st) (range 0 7) = n /\
  bucket_sum (month_counts st) (range 1 13) = n /\
  total (hour_counts st) = n.
Proof.
  intros ok. exact (fold_hists bad_words stop_words ok lines init).
Qed.

Lemma histogram_sums_witness :
  let st := run Ref.full [] [] mixed_lines in
  bucket_sum (hour_counts st) (range 0 24) = 2 /\
  bucket_sum (weekday_counts st) (range 0 7) = 2 /\
  bucket_sum (month_counts st) (range 1 13) = 2 /\
  total (hour_counts st) = 2.
Proof.
  exact (histogram_sums [] [] mixed_lines ref_full_ok).
Defined.

(** ** The timestamp parser *)

Lemma try_formats_first (rt : Runtime) (data : str) (fs : list str) :
  match try_formats rt data fs with
  | Some dt =>
      exists tried fmt rest,
        fs = tried ++ fmt :: rest /\
        Forall (fun f => strptime rt data f = None) tried /\
        strptime rt data fmt = Some dt
  | None => Forall (fun f => strptime rt data f = None) fs
  end.
Proof.
  induction fs as [|fmt fs IH]; simpl; [constructor|].
  destruct (strptime rt data fmt) as [dt|] eqn:E.
  - exists [], fmt, fs. repeat split; auto.
  - destruct (try_formats rt data fs) as [dt|].
    + destruct IH as (tried & f & rest & -> & T & S).
      exists (fmt :: tried), f, rest. repeat split; auto.
    + constructor; auto.
Qed.

(** C4.  The parser's format list is the product of the two date orders and
    the two clocks, month/day before day/month for each clock; the parser
    returns what the first format that [strptime] accepts yields, and
    nothing when none accepts; a line whose timestamp text yields nothing
    leaves the whole state as it was. *)
Theorem parse_timestamp_first_match (rt : Runtime) :
  formats =
    [ format_of MonthDay Clock12; format_of DayMonth Clock12;
      format_of MonthDay Clock24; format_of DayMonth Clock24 ] /\
  formats =
    flat_map (fun c => List.map (fun o => format_of o c) [MonthDay; DayMonth])
             [Clock12; Clock24] /\
  (forall raw_ts,
     match parse_timestamp rt raw_ts with
     | Some dt =>
         exists tried fmt rest,
           formats = tried ++ fmt :: rest /\
           Forall (fun f => strptime rt (strip raw_ts) f = None) tried /\
           strptime rt (strip raw_ts) fmt = Some dt
     | None => Forall (fun f => strptime rt (strip raw_ts) f = None) formats
     end) /\
  (forall bad_words stop_words st raw ts_part content,
     split1 SEP raw = Some (ts_part, content) ->
     parse_timestamp rt ts_part = None ->
     step rt bad_words stop_words st raw = st).
Proof.
  split; [reflexivity|]. split; [reflexivity|]. split.
  - intros raw_ts. apply try_formats_first.
  - intros bad_words stop_words st raw ts content S P.
    apply step_unparsed. unfold parsed. rewrite S, P.
    destruct (contains SEP raw); reflexivity.
Qed.

Lemma parse_timestamp_first_match_witness :
  step Ref.plain [] [] init (lit "31/31/20, 9:53 AM - Alice: hi") = init /\
  parse_timestamp Ref.plain (lit "11/4/20, 9:53 AM") = Some (mk_datetime 2020 11 4 9 53) /\
  parse_timestamp Ref.plain (lit "25/4/20, 21:53") = Some (mk_datetime 2020 4 25 21 53).
Proof.
  split; [|split; vm_compute; reflexivity].
  apply (proj2 (proj2 (proj2 (parse_timestamp_first_match Ref.plain)))
           [] [] init (lit "31/31/20, 9:53 AM - Alice: hi")
           (lit "31/31/20, 9:53 AM") (lit "Alice: hi")).
  - vm_compute. reflexivity.
  - vm_compute. reflexivity.
Defined.

(** ** The date formatter *)

(** C5.  For an instant the [datetime] type admits, on a runtime that meets
    its contract, the formatter returns a label, a weekday index and a month
    number such that: the index is the Saturday-first number of the
    instant's day of the week, between 0 and 6, 0 exactly on a Saturday and
    6 exactly on a Friday; the month is between 1 and 12; without the Jalali
    package the index is the Monday-first weekday plus 2 modulo 7 and the
    month is the Gregorian one; with it the index and the month are the
    converter's own. *)
Theorem weekday_numbering (rt : Runtime) (dt : datetime) :
  RuntimeOk rt -> valid_datetime dt = true ->
  let '(label, w, m) := format_jalali_date rt dt in
  w = sat_first (day_of dt) /\
  0 <= w <= 6 /\
  (w = 0 <-> day_of dt = Sat) /\
  (w = 6 <-> day_of dt = Fri) /\
  1 <= m <= 12 /\
  match jdatetime rt with
  | None =>
      label = strftime_ymd dt /\ w = (weekday dt + 2) mod 7 /\ m = month dt
  | Some lib =>
      label = jstrftime_ymd lib (fromgregorian lib dt) /\
      w = jweekday lib (fromgregorian lib dt) /\
      m = jmonth (fromgregorian lib dt)
  end.
Proof.
  intros ok V. destruct (format_jalali_date_spec ok dt V) as (W & M).
  assert (S : match jdatetime rt with
              | None =>
                  format_jalali_date rt dt
                  = (strftime_ymd dt, (weekday dt + 2) mod 7, month dt)
              | Some lib =>
                  format_jalali_date rt dt
                  = (jstrftime_ymd lib (fromgregorian lib dt),
                     jweekday lib (fromgregorian lib dt),
                     jmonth (fromgregorian lib dt))
              end)
    by (unfold format_jalali_date; destruct (jdatetime rt); reflexivity).
  destruct (format_jalali_date rt dt) as [[label w] m]. simpl in W, M.
  split; [exact W|]. split; [rewrite W; apply sat_first_range|].
  split; [rewrite W; apply sat_first_sat|].
  split; [rewrite W; apply sat_first_fri|].
  split; [exact M|].
  destruct (jdatetime rt); inversion S; auto.
Qed.

Lemma weekday_numbering_witness :
  format_jalali_date Ref.full (mk_datetime 2020 11 7 9 53) = (lit "1399/08/17", 0, 8) /\
  format_jalali_date Ref.plain (mk_datetime 2020 11 7 9 53) = (lit "2020/11/07", 0, 11) /\
  day_of (mk_datetime 2020 11 7 9 53) = Sat.
Proof.
  pose proof (weekday_numbering (mk_datetime 2020 11 7 9 53) ref_full_ok eq_refl) as F.
  pose proof (weekday_numbering (mk_datetime 2020 11 7 9 53) ref_plain_ok eq_refl) as P.
  destruct (format_jalali_date Ref.full (mk_datetime 2020 11 7 9 53)) as [[l1 w1] m1].
  destruct (format_jalali_date Ref.plain (mk_datetime 2020 11 7 9 53)) as [[l2 w2] m2].
  destruct F as (_ & _ & _ & _ & _ & F1 & F2 & F3).
  destruct P as (_ & _ & _ & _ & _ & P1 & P2 & P3).
  cbn [jdatetime Ref.full Ref.plain] in F1, F2, F3, P1, P2, P3.
  subst. vm_compute. repeat split.
Defined.

(** ** The weekday table of the report *)

(** C6, on the code.  With the Jalali package the seven rows carry the
    Persian names Saturday first, as the buckets are numbered.  Without it
    the rows carry Tue, Wed, Thu, Fri, Sat, Sun, Mon: the name of bucket [i]
    is taken at index [(i + 1) mod 7] of a Monday-first table, three days
    after the day the bucket counts.  A message sent on Saturday 7 November
    2020 is counted in bucket 0 and printed in the row named Tue. *)
Theorem fallback_weekday_labels :
  List.map (weekday_name Ref.full) (range 0 7) = FA_WEEKDAYS /\
  List.map (weekday_name Ref.plain) (range 0 7) =
    List.map english_name [Tue; Wed; Thu; Fri; Sat; Sun; Mon] /\
  List.map english_name (List.map day_of_bucket (range 0 7)) =
    List.map english_name [Sat; Sun; Mon; Tue; Wed; Thu; Fri] /\
  parsed Ref.plain saturday_line =
    Some (mk_datetime 2020 11 7 9 53, lit "Alice: this is a badword example") /\
  day_of (mk_datetime 2020 11 7 9 53) = Sat /\
  weekday_lines Ref.plain (run Ref.plain [] [] [saturday_line]) =
    [ Text (lit "Weekday Distribution:");
      WeekdayRow (lit "Tue") 1; WeekdayRow (lit "Wed") 0; WeekdayRow (lit "Thu") 0;
      WeekdayRow (lit "Fri") 0; WeekdayRow (lit "Sat") 0; WeekdayRow (lit "Sun") 0;
      WeekdayRow (lit "Mon") 0 ].
Proof. repeat split; vm_compute; reflexivity. Qed.

(** ** User records *)

Lemma user_times_snoc (rt : Runtime) (lines : list str) (raw sender : str) :
  user_times rt (lines ++ [raw]) sender =
  user_times rt lines sender ++
  match line_user rt raw with
  | Some (s, dt) => if str_eqb s sender then [dt] else []
  | None => []
  end.
Proof.
  unfold user_times, choose.
  rewrite flat_map_app, filter_app, map_app. f_equal.
  simpl. destruct (line_user rt raw) as [[s dt]|]; [|reflexivity].
  simpl. destruct (str_eqb s sender); reflexivity.
Qed.

Lemma hd_error_app (A : Type) (l : list A) (x : A) :
  l <> [] -> hd_error (l ++ [x]) = hd_error l.
Proof. destruct l; [congruence | reflexivity]. Qed.

Lemma In_insert_desc (A : Type) (key : A -> Z) (x y : A) (l : list A) :
  In y (insert_desc key x l) <-> y = x \/ In y l.
Proof.
  induction l as [|z l IH]; simpl.
  - intuition.
  - destruct (key z <=? key x); simpl; [intuition|].
    rewrite IH. intuition.
Qed.

Lemma In_sorted_desc (A : Type) (key : A -> Z) (y : A) (l : list A) :
  In y (sorted_desc key l) <-> In y l.
Proof.
  induction l as [|x l IH]; simpl; [tauto|].
  rewrite In_insert_desc, IH. intuition.
Qed.

Section UserFacts.
Variable rt : Runtime.
Variables bad_words stop_words : list str.

Local Abbreviation run := (run rt bad_words stop_words).

(** What the record of a sender holds after a transcript, in terms of the
    instants of that sender's messages. *)
Lemma user_inv (lines : list str) (sender : str) :
  match get str_eqb (user_stats (run lines)) sender with
  | Some r =>
      user_times rt lines sender <> [] /\
      first_ts r = hd_error (user_times rt lines sender) /\
      last_ts r = hd_error (rev (user_times rt lines sender)) /\
      messages r = Z.of_nat (List.length (user_times rt lines sender))
  | None => user_times rt lines sender = []
  end.
Proof.
  induction lines as [|raw lines IH] using rev_ind; [reflexivity|].
  rewrite run_snoc, step_users, user_times_snoc. unfold line_user.
  destruct (parsed rt raw) as [[dt content]|];
    [|rewrite app_nil_r; exact IH].
  destruct (classify raw content) as [s message| | |];
    try (rewrite app_nil_r; exact IH).
  destruct (str_eqb s sender) eqn:E.
  - apply str_eqb_eq in E. subst s.
    rewrite (get_put_same _ str_eqb_eq). unfold user_of.
    destruct (get str_eqb (user_stats (run lines)) sender) as [r|].
    + destruct IH as (N & F & L & M). cbn [update_user first_ts last_ts messages].
      split; [destruct (user_times rt lines sender); discriminate|].
      rewrite hd_error_app by exact N. rewrite rev_app_distr, length_app.
      split; [|split; [reflexivity | simpl; lia]].
      rewrite F. destruct (user_times rt lines sender); [congruence | reflexivity].
    + rewrite IH. cbn. repeat split. discriminate.
  - rewrite (get_put_other _ str_eqb_eq), app_nil_r.
    + exact IH.
    + apply str_eqb_neq in E. congruence.
Qed.

Lemma fold_positive (lines : list str) (st : state) :
  Forall (fun kv => 1 <= messages (snd kv)) (user_stats st) ->
  Forall (fun kv => 1 <= messages (snd kv))
         (user_stats (fold_left (step rt bad_words stop_words) lines st)).
Proof.
  revert st; induction lines as [|raw lines IH]; intros st H; [exact H|].
  simpl. apply IH. rewrite step_users.
  destruct (parsed rt raw) as [[dt content]|]; [|exact H].
  destruct (classify raw content) as [s message| | |]; try exact H.
  apply (Forall_put str_eqb (fun d => 1 <= messages d)); [exact H|].
  cbn [update_user messages]. unfold user_of.
  destruct (get str_eqb (user_stats st) s) as [r|] eqn:G; [|simpl; lia].
  apply (get_In _ str_eqb_eq) in G.
  rewrite Forall_forall in H. specialize (H _ G). simpl in H. lia.
Qed.
End UserFacts.

(** C7.  After any transcript the record of a sender holds as first
    timestamp the instant of that sender's first message in transcript order
    and as last timestamp the instant of the sender's last message in
    transcript order: a message sets the first timestamp only when the
    record has none and sets the last timestamp always, without comparing
    instants.  On a transcript that is not in time order the first
    timestamp is later than the last. *)
Theorem first_last_transcript_order :
  (forall rt bad_words stop_words lines sender r,
     get str_eqb (user_stats (run rt bad_words stop_words lines)) sender = Some r ->
     user_times rt lines sender <> [] /\
     first_ts r = hd_error (user_times rt lines sender) /\
     last_ts r = hd_error (rev (user_times rt lines sender))) /\
  (forall rt bad_words s dt message,
     first_ts (update_user rt bad_words s dt message) =
       match first_ts s with Some t => Some t | None => Some dt end /\
     last_ts (update_user rt bad_words s dt message) = Some dt) /\
  (exists r a b,
     get str_eqb (user_stats (run Ref.plain [] [] out_of_order)) (lit "Alice") = Some r /\
     first_ts r = Some a /\ last_ts r = Some b /\ dt_ltb b a = true).
Proof.
  split; [|split].
  - intros rt bad_words stop_words lines sender r G.
    pose proof (user_inv rt bad_words stop_words lines sender) as I.
    rewrite G in I. tauto.
  - intros. split; reflexivity.
  - eexists. exists (mk_datetime 2020 11 8 9 0), (mk_datetime 2020 11 7 9 0).
    repeat split; vm_compute; reflexivity.
Qed.

Lemma first_last_transcript_order_witness :
  user_times Ref.plain out_of_order (lit "Alice")
    = [mk_datetime 2020 11 8 9 0; mk_datetime 2020 11 7 9 0] /\
  forall r,
    get str_eqb (user_stats (run Ref.plain [] [] out_of_order)) (lit "Alice") = Some r ->
    first_ts r = Some (mk_datetime 2020 11 8 9 0) /\
    last_ts r = Some (mk_datetime 2020 11 7 9 0).
Proof.
  split; [vm_compute; reflexivity|].
  intros r G.
  destruct (proj1 first_last_transcript_order Ref.plain [] [] out_of_order
                  (lit "Alice") r G) as (_ & F & L).
  rewrite F, L. split; vm_compute; reflexivity.
Defined.

(** ** Blocked words *)

(** C8.  A message counts as a bad-word hit exactly when some blocked word
    occurs in its body as a substring: any body that contains a blocked word
    between arbitrary text, inside a longer word or not, adds one to the
    sender's count, and with an empty blocklist the count never moves.  For
    the body "this is a badword example" the count of the sender is 1 when
    the blocklist holds "badword" and 0 when there is no blocklist. *)
Theorem bad_word_substring :
  (forall rt bad_words s dt message,
     bad_word (update_user rt bad_words s dt message) =
     bad_word s + (if existsb (fun bw => contains bw message) bad_words then 1 else 0)) /\
  (forall rt bad_words s dt bw pre post,
     In bw bad_words ->
     bad_word (update_user rt bad_words s dt (pre ++ bw ++ post)) = bad_word s + 1) /\
  (forall rt s dt message,
     bad_word (update_user rt [] s dt message) = bad_word s) /\
  (exists r,
     get str_eqb (user_stats (run Ref.plain [lit "badword"] [] [saturday_line]))
         (lit "Alice") = Some r /\ bad_word r = 1) /\
  (exists r,
     get str_eqb (user_stats (run Ref.plain [] [] [saturday_line]))
         (lit "Alice") = Some r /\ bad_word r = 0) /\
  (exists r,
     get str_eqb
         (user_stats (run Ref.plain [lit "badword"] []
                          [lit "11/7/20, 9:53 AM - Alice: unbadwordly said"]))
         (lit "Alice") = Some r /\ bad_word r = 1).
Proof.
  assert (G : forall rt bad_words s dt message,
     bad_word (update_user rt bad_words s dt message) =
     bad_word s + (if existsb (fun bw => contains bw message) bad_words then 1 else 0)).
  { intros. cbn [update_user bad_word]. unfold bad_word_hit.
    destruct bad_words as [|w ws]; simpl; [lia|].
    destruct (contains w message || existsb (fun bw => contains bw message) ws);
      lia. }
  split; [exact G|]. split; [|split; [|split; [|split]]].
  - intros rt bad_words s dt bw pre post H. rewrite G.
    replace (existsb (fun bw0 => contains bw0 (pre ++ bw ++ post)) bad_words) with true;
      [reflexivity|].
    symmetry. apply existsb_exists. exists bw. split; [exact H | apply contains_app].
  - intros. rewrite G. simpl. lia.
  - eexists. split; vm_compute; reflexivity.
  - eexists. split; vm_compute; reflexivity.
  - eexists. split; vm_compute; reflexivity.
Qed.

Lemma bad_word_substring_witness :
  bad_word (update_user Ref.plain [lit "worse"; lit "badword"] new_user
                        (mk_datetime 2020 11 7 9 53)
                        (lit "this is a " ++ lit "badword" ++ lit " example")) = 1.
Proof.
  apply (proj1 (proj2 bad_word_substring) Ref.plain [lit "worse"; lit "badword"]
               new_user (mk_datetime 2020 11 7 9 53) (lit "badword")
               (lit "this is a ") (lit " example")).
  simpl. right. left. reflexivity.
Defined.

(** ** The empty report *)

Lemma run_no_timestamps (rt : Runtime) (bad_words stop_words lines : list str) :
  forallb (fun raw => negb (has_timestamp rt raw)) lines = true ->
  run rt bad_words stop_words lines = init.
Proof.
  unfold run. generalize init as st.
  induction lines as [|raw lines IH]; intros st H; [reflexivity|].
  simpl in H. apply andb_true_iff in H. destruct H as [H1 H2].
  simpl. rewrite step_unparsed; [now apply IH|].
  rewrite has_timestamp_parsed in H1.
  destruct (parsed rt raw); [discriminate | reflexivity].
Qed.

(** C9.  When no line of the transcript has a timestamp that parses, the
    empty transcript included, the script runs to its end without raising,
    and prints the report of the initial state: no user row, no creation
    line, the message that no renames were detected, 24 hour cells, 7
    weekday rows and 12 month rows that all show 0, no statistics, no words
    and no emoji section. *)
Theorem empty_transcript_report (rt : Runtime) (bad_words stop_words lines : list str) :
  forallb (fun raw => negb (has_timestamp rt raw)) lines = true ->
  script rt bad_words stop_words lines = Printed (empty_report rt).
Proof.
  intros H. unfold script. rewrite (run_no_timestamps _ _ _ _ H). reflexivity.
Qed.

Lemma empty_transcript_report_witness :
  script Ref.full [lit "badword"] [] no_timestamps = Printed (empty_report Ref.full) /\
  script Ref.plain [] [] [] = Printed (empty_report Ref.plain).
Proof.
  split.
  - apply (empty_transcript_report Ref.full [lit "badword"] [] no_timestamps).
    vm_compute. reflexivity.
  - apply (empty_transcript_report Ref.plain [] [] []).
    reflexivity.
Defined.

(** ** Averages *)

(** C10.  Every record the reporter iterates over has a message count of at
    least 1, so the guard against a zero count never takes its zero branch:
    the two averages of every row are quotients by that positive count. *)
Theorem user_messages_positive (rt : Runtime) (bad_words stop_words lines : list str)
        (user : str) (d : user_rec) :
  In (user, d) (sorted_desc (fun kv => messages (snd kv))
                            (user_stats (run rt bad_words stop_words lines))) ->
  In (user, d) (user_stats (run rt bad_words stop_words lines)) /\
  1 <= messages d /\
  avg (char_sum d) (messages d) = Quot (char_sum d) (messages d) /\
  avg (word_sum d) (messages d) = Quot (word_sum d) (messages d) /\
  user_row (user, d) =
    UserRow (firstn 22 user) (messages d) (media d) (deleted d) (bad_word d)
            (Quot (char_sum d) (messages d)) (Quot (word_sum d) (messages d)).
Proof.
  intros H. apply In_sorted_desc in H. split; [exact H|].
  assert (P : 1 <= messages d).
  { pose proof (fold_positive rt bad_words stop_words lines init (Forall_nil _)) as F.
    rewrite Forall_forall in F. exact (F (user, d) H). }
  assert (A : forall x, avg x (messages d) = Quot x (messages d)).
  { intros x. unfold avg. destruct (Z.eqb_spec (messages d) 0); [lia | reflexivity]. }
  split; [exact P|]. split; [apply A|]. split; [apply A|].
  unfold user_row. now rewrite !A.
Qed.

Lemma user_messages_positive_witness :
  exists d,
    In (lit "Alice", d) (user_stats (run Ref.plain [] [] out_of_order)) /\
    messages d = 2 /\
    user_row (lit "Alice", d) =
      UserRow (lit "Alice") 2 0 0 0 (Quot 12 2) (Quot 2 2).
Proof.
  eexists.
  assert (I : In (lit "Alice",
                  {| messages := 2; media := 0; deleted := 0; bad_word := 0;
                     char_sum := 12; word_sum := 2;
                     first_ts := Some (mk_datetime 2020 11 8 9 0);
                     last_ts := Some (mk_datetime 2020 11 7 9 0) |})
                 (sorted_desc (fun kv => messages (snd kv))
                              (user_stats (run Ref.plain [] [] out_of_order))))
    by (vm_compute; left; reflexivity).
  destruct (user_messages_positive Ref.plain [] [] out_of_order _ _ I)
    as (H & _ & _ & _ & R).
  split; [exact H|]. split; [reflexivity|]. exact R.
Defined.

(** * Further properties *)

(** ** White space and separators *)

Lemma lstrip_head (s t : str) (c : char) :
  lstrip s = c :: t -> isspace c = false.
Proof.
  induction s as [|x s IH]; simpl; [discriminate|].
  destruct (isspace x) eqn:E; [exact IH|].
  intros [= <- _]. exact E.
Qed.

Lemma lstrip_idem (s : str) : lstrip (lstrip s) = lstrip s.
Proof.
  induction s as [|x s IH]; simpl; [reflexivity|].
  destruct (isspace x) eqn:E; [exact IH|]. simpl. now rewrite E.
Qed.

Lemma lstrip_snoc (u : str) (c : char) :
  isspace c = false -> lstrip (u ++ [c]) = lstrip u ++ [c].
Proof.
  intros H. induction u as [|x u IH]; simpl.
  - now rewrite H.
  - destruct (isspace x); [exact IH | reflexivity].
Qed.

Lemma rstrip_cons (c : char) (t : str) :
  isspace c = false -> rstrip (c :: t) = c :: rstrip t.
Proof.
  intros H. unfold rstrip. simpl rev.
  rewrite lstrip_snoc by exact H. rewrite rev_app_distr. reflexivity.
Qed.

Lemma rstrip_idem (s : str) : rstrip (rstrip s) = rstrip s.
Proof. unfold rstrip. now rewrite rev_involutive, lstrip_idem. Qed.

Lemma strip_no_edge (s : str) : no_edge_space (strip s).
Proof.
  unfold no_edge_space, strip. split; [|apply rstrip_idem].
  destruct (lstrip s) as [|c t] eqn:E; [reflexivity|].
  pose proof (lstrip_head _ E) as H.
  rewrite rstrip_cons by exact H. simpl. now rewrite H.
Qed.

Lemma strip_fixed (s : str) : no_edge_space s -> strip s = s.
Proof. intros [L R]. unfold strip. now rewrite L, R. Qed.

Lemma strip_idem (s : str) : strip (strip s) = strip s.
Proof. apply strip_fixed, strip_no_edge. Qed.

Lemma In_lstrip (x : char) (s : str) : In x (lstrip s) -> In x s.
Proof.
  induction s as [|c s IH]; simpl; [tauto|].
  destruct (isspace c); simpl; tauto.
Qed.

Lemma In_strip (x : char) (s : str) : In x (strip s) -> In x s.
Proof.
  unfold strip, rstrip. intros H.
  apply In_lstrip. apply in_rev. apply In_lstrip. apply in_rev. exact H.
Qed.

Lemma lstrip_nil (s : str) : lstrip s = [] <-> forallb isspace s = true.
Proof.
  induction s as [|c s IH]; simpl; [tauto|].
  destruct (isspace c); simpl; [exact IH|]. split; discriminate.
Qed.

Lemma strip_nil (s : str) : strip s = [] <-> forallb isspace s = true.
Proof.
  rewrite <- lstrip_nil. unfold strip. split.
  - intros H. destruct (lstrip s) as [|c t] eqn:E; [reflexivity|].
    rewrite rstrip_cons in H by exact (lstrip_head _ E). discriminate.
  - intros ->. reflexivity.
Qed.

Lemma starts_with_prefix (p a b : str) :
  starts_with p a = true -> starts_with p (a ++ b) = true.
Proof.
  revert a; induction p as [|x p IH]; intros [|y a]; simpl; try discriminate;
    try reflexivity.
  rewrite !andb_true_iff. intros [E H]. split; [exact E | now apply IH].
Qed.

Lemma split1_exact (sep s a b : str) :
  split1 sep s = Some (a, b) -> s = a ++ sep ++ b.
Proof.
  revert a; induction s as [|c s IH]; intros a; simpl.
  - destruct (starts_with sep []) eqn:E; [|discriminate].
    intros [= <- <-]. now apply starts_with_split.
  - destruct (starts_with sep (c :: s)) eqn:E.
    + intros [= <- <-]. now apply starts_with_split.
    + destruct (split1 sep s) as [[a' b']|]; [|discriminate].
      intros [= <- <-]. simpl. f_equal. now apply IH.
Qed.

Lemma split1_first (sep s a b : str) :
  sep <> [] -> split1 sep s = Some (a, b) -> contains sep a = false.
Proof.
  intros N. revert a; induction s as [|c s IH]; intros a; simpl.
  - destruct (starts_with sep []) eqn:E; [|discriminate].
    intros [= <- _]. destruct sep; [congruence | reflexivity].
  - destruct (starts_with sep (c :: s)) eqn:E.
    + intros [= <- _]. destruct sep; [congruence | reflexivity].
    + destruct (split1 sep s) as [[a' b']|] eqn:S; [|discriminate].
      intros [= <- <-]. simpl. rewrite (IH _ eq_refl), orb_false_r.
      destruct (starts_with sep (c :: a')) eqn:P; [|reflexivity].
      apply split1_exact in S. subst s.
      change (c :: a' ++ sep ++ b') with ((c :: a') ++ sep ++ b') in E.
      rewrite starts_with_prefix in E by exact P. discriminate.
Qed.

Lemma contains_single (c : char) (s : str) :
  contains [c] s = true <-> In c s.
Proof.
  induction s as [|x s IH]; simpl; [split; [discriminate | tauto]|].
  rewrite orb_true_iff, IH, andb_true_r, N.eqb_eq. intuition.
Qed.

(** X1.  A line the loop does not skip is its timestamp text, the separator
    and its payload put together again, the timestamp text holds no
    separator of its own, and it is that text the parser accepted. *)
Theorem line_split_exact (rt : Runtime) (raw : str) (dt : datetime) (content : str) :
  parsed rt raw = Some (dt, content) ->
  exists ts_part,
    raw = ts_part ++ SEP ++ content /\
    contains SEP ts_part = false /\
    parse_timestamp rt ts_part = Some dt.
Proof.
  unfold parsed. destruct (contains SEP raw); simpl; [|discriminate].
  destruct (split1 SEP raw) as [[ts c]|] eqn:S; [|discriminate].
  destruct (parse_timestamp rt ts) as [d|] eqn:P; [|discriminate].
  intros [= <- <-]. exists ts. split; [exact (@split1_exact SEP raw ts c S)|].
  split; [|exact P]. apply (@split1_first SEP raw ts c); [discriminate | exact S].
Qed.

Lemma line_split_exact_witness :
  exists ts_part,
    saturday_line = ts_part ++ SEP ++ lit "Alice: this is a badword example" /\
    contains SEP ts_part = false /\
    parse_timestamp Ref.plain ts_part = Some (mk_datetime 2020 11 7 9 53).
Proof.
  apply (line_split_exact Ref.plain saturday_line). vm_compute. reflexivity.
Defined.

Lemma classify_by_split (raw content : str) :
  classify raw content =
  match split1 COLON content with
  | Some (prefix, suffix) =>
      if is_empty (strip prefix) then Ignored
      else UserMessage (strip prefix) (strip suffix)
  | None => system_event raw content
  end.
Proof.
  unfold classify. destruct (contains COLON content) eqn:C.
  - apply contains_split1 in C. destruct C as (a & b & ->). reflexivity.
  - apply split1_none in C. now rewrite C.
Qed.

Lemma classify_sender_facts (raw content : str) :
  match split1 COLON content with
  | Some (prefix, suffix) =>
      content = prefix ++ COLON ++ suffix /\
      ~ In 58%N prefix /\
      (classify raw content = Ignored <-> forallb isspace prefix = true) /\
      (forallb isspace prefix = false ->
       classify raw content = UserMessage (strip prefix) (strip suffix) /\
       strip prefix <> [] /\
       no_edge_space (strip prefix) /\
       ~ In 58%N (strip prefix) /\
       no_edge_space (strip suffix))
  | None =>
      ~ In 58%N content /\
      forall sender message, classify raw content <> UserMessage sender message
  end.
Proof.
  pose proof (classify_by_split raw content) as E.
  destruct (split1 COLON content) as [[prefix suffix]|] eqn:S.
  - assert (C : ~ In 58%N prefix).
    { intros H. apply (contains_single 58%N) in H.
      assert (F : contains COLON prefix = false)
        by (apply (@split1_first COLON content prefix suffix); [discriminate | exact S]).
      assert (A : true = false) by exact (eq_trans (eq_sym H) F). discriminate. }
    split; [exact (@split1_exact COLON content prefix suffix S)|]. split; [exact C|]. split.
    + rewrite E, <- strip_nil.
      destruct (strip prefix); simpl; split; intros H; try reflexivity; discriminate.
    + intros A. assert (N : strip prefix <> []).
      { intros H. apply strip_nil in H. congruence. }
      split.
      * rewrite E. destruct (strip prefix); [congruence | reflexivity].
      * repeat split; try apply strip_no_edge; auto.
        intros H. apply C. now apply In_strip.
  - split.
    + intros H. apply (contains_single 58%N) in H.
      apply split1_none in S.
      assert (A : true = false) by exact (eq_trans (eq_sym H) S). discriminate.
    + intros sender message. rewrite E. unfold system_event.
      destruct (Re.match_ RE_CREATED content) as [[m r]|]; [discriminate|].
      destruct (Re.match_ RE_GROUP_RENAME raw) as [[m r]|]; discriminate.
Qed.

(** X2.  A payload with a colon splits at its first colon, so the text
    before it holds no colon.  The line is dropped exactly when that text is
    blank; otherwise it is a user message whose sender is not empty, has no
    white space at either end and no colon, and whose body has no white
    space at either end.  A payload without a colon is never a user
    message. *)
Theorem user_message_sender (raw content : str) :
  match split1 COLON content with
  | Some (prefix, suffix) =>
      content = prefix ++ COLON ++ suffix /\
      ~ In 58%N prefix /\
      (classify raw content = Ignored <-> forallb isspace prefix = true) /\
      (forallb isspace prefix = false ->
       classify raw content = UserMessage (strip prefix) (strip suffix) /\
       strip prefix <> [] /\
       no_edge_space (strip prefix) /\
       ~ In 58%N (strip prefix) /\
       no_edge_space (strip suffix))
  | None =>
      ~ In 58%N content /\
      forall sender message, classify raw content <> UserMessage sender message
  end.
Proof. exact (classify_sender_facts raw content). Qed.

Lemma user_message_sender_witness :
  classify (lit "11/7/20, 9:53 AM -  Alice : hi: there ") (lit " Alice : hi: there ")
  = UserMessage (lit "Alice") (lit "hi: there").
Proof.
  pose proof (user_message_sender (lit "11/7/20, 9:53 AM -  Alice : hi: there ")
                                  (lit " Alice : hi: there ")) as H.
  cbv beta iota zeta delta [split1] in H.
  vm_compute split1 in H.
  exact (proj1 (proj2 (proj2 (proj2 H)) eq_refl)).
Defined.

(** X3.  The parser reads a timestamp text as it reads the same text with
    the white space around it removed, so the extra [strip] of line 206
    changes nothing. *)
Theorem parse_timestamp_strip (rt : Runtime) (raw_ts : str) :
  parse_timestamp rt (strip raw_ts) = parse_timestamp rt raw_ts.
Proof. unfold parse_timestamp. now rewrite strip_idem. Qed.

(** ** Keys *)

Lemma keys_put (K V : Type) (eqb : K -> K -> bool) (d : dict K V) (k : K) (v : V) :
  keys (put eqb d k v) =
  if is_some (get eqb d k) then keys d else keys d ++ [k].
Proof.
  unfold keys. induction d as [|[j w] d IH]; simpl; [reflexivity|].
  destruct (eqb k j); simpl; [reflexivity|].
  rewrite IH. destruct (is_some (get eqb d k)); reflexivity.
Qed.

Lemma is_some_get (V : Type) (d : dict str V) (k : str) :
  is_some (get str_eqb d k) = in_list k (keys d).
Proof.
  unfold in_list, keys. induction d as [|[j w] d IH]; simpl; [reflexivity|].
  destruct (str_eqb k j); simpl; [reflexivity | exact IH].
Qed.

Lemma in_list_In (k : str) (ks : list str) : in_list k ks = true <-> In k ks.
Proof.
  unfold in_list. rewrite existsb_exists. split.
  - intros (x & H & E). apply str_eqb_eq in E. now subst.
  - intros H. exists k. split; [exact H | apply str_eqb_refl].
Qed.

Lemma NoDup_add_key (ks : list str) (k : str) : NoDup ks -> NoDup (add_key ks k).
Proof.
  intros H. unfold add_key. destruct (in_list k ks) eqn:E; [exact H|].
  apply (Permutation_NoDup (l:=k :: ks)); [apply Permutation_cons_append|].
  constructor; [|exact H].
  intros I. apply in_list_In in I. congruence.
Qed.

Lemma In_add_key (ks : list str) (k x : str) :
  In x (add_key ks k) <-> In x ks \/ x = k.
Proof.
  unfold add_key. destruct (in_list k ks) eqn:E.
  - apply in_list_In in E. split; [tauto|]. intros [H| ->]; assumption.
  - rewrite in_app_iff. simpl. intuition.
Qed.

Lemma fold_add_key (l ks : list str) :
  NoDup ks ->
  NoDup (fold_left add_key l ks) /\
  forall x, In x (fold_left add_key l ks) <-> In x ks \/ In x l.
Proof.
  revert ks; induction l as [|k l IH]; intros ks H; simpl.
  - split; [exact H | tauto].
  - destruct (IH _ (NoDup_add_key k H)) as [N I]. split; [exact N|].
    intros x. rewrite I, In_add_key. intuition.
Qed.

Lemma In_choose (A B : Type) (f : A -> option B) (l : list A) (y : B) :
  In y (choose f l) <-> exists x, In x l /\ f x = Some y.
Proof.
  unfold choose. rewrite in_flat_map. split.
  - intros (x & H & I). exists x. split; [exact H|].
    destruct (f x); simpl in I; [destruct I as [->|[]]; reflexivity | contradiction].
  - intros (x & H & E). exists x. split; [exact H|]. rewrite E. now left.
Qed.

Section KeyFacts.
Variable rt : Runtime.
Variables bad_words stop_words : list str.

Lemma step_keys (st : state) (raw : str) :
  keys (user_stats (step rt bad_words stop_words st raw)) =
  match line_user rt raw with
  | Some (s, _) => add_key (keys (user_stats st)) s
  | None => keys (user_stats st)
  end.
Proof.
  rewrite step_users. unfold line_user.
  destruct (parsed rt raw) as [[dt content]|]; [|reflexivity].
  destruct (classify raw content); try reflexivity.
  rewrite keys_put, is_some_get. reflexivity.
Qed.

Lemma fold_keys (lines : list str) (st : state) :
  keys (user_stats (fold_left (step rt bad_words stop_words) lines st)) =
  fold_left add_key (List.map fst (choose (line_user rt) lines)) (keys (user_stats st)).
Proof.
  revert st; induction lines as [|raw lines IH]; intros st; [reflexivity|].
  simpl fold_left at 1. rewrite IH, step_keys. unfold choose. simpl.
  destruct (line_user rt raw) as [[s dt]|]; reflexivity.
Qed.

Lemma line_user_sender (raw sender : str) (dt : datetime) :
  line_user rt raw = Some (sender, dt) ->
  sender <> [] /\ no_edge_space sender /\ ~ In 58%N sender.
Proof.
  unfold line_user. destruct (parsed rt raw) as [[d content]|]; [|discriminate].
  pose proof (classify_sender_facts raw content) as U.
  destruct (classify raw content) as [s m| | |] eqn:C; try discriminate.
  intros [= <- _].
  destruct (split1 COLON content) as [[prefix suffix]|].
  - destruct U as (_ & _ & I & U).
    destruct (forallb isspace prefix) eqn:A.
    + destruct I as [_ I]. specialize (I eq_refl). discriminate.
    + destruct (U eq_refl) as (E & N & S & Q & _). inversion E; subst. auto.
  - destruct U as [_ U]. exfalso. exact (U _ _ eq_refl).
Qed.
End KeyFacts.

Lemma sender_keys_facts (rt : Runtime) (bad_words stop_words lines : list str) :
  let ks := keys (user_stats (run rt bad_words stop_words lines)) in
  ks = first_seen (List.map fst (choose (line_user rt) lines)) /\
  NoDup ks /\
  (forall k, In k ks <-> user_times rt lines k <> []) /\
  Forall (fun k => k <> [] /\ no_edge_space k /\ ~ In 58%N k) ks.
Proof.
  cbv zeta. unfold run. rewrite fold_keys. change (keys (user_stats init)) with (@nil str).
  destruct (fold_add_key (List.map fst (choose (line_user rt) lines)) (NoDup_nil str))
    as [N I].
  split; [reflexivity|]. split; [exact N|]. split.
  - intros k. rewrite I. unfold user_times. split.
    + intros [[]|H] E. apply in_map_iff in H. destruct H as ([s dt] & <- & H).
      apply map_eq_nil in E.
      assert (F : In (s, dt) (filter (fun p => str_eqb (fst p) (fst (s, dt)))
                                     (choose (line_user rt) lines))).
      { apply filter_In. split; [exact H | apply str_eqb_refl]. }
      simpl in F, E. rewrite E in F. exact F.
    + intros H. right.
      destruct (filter (fun p => str_eqb (fst p) k) (choose (line_user rt) lines))
        as [|[s dt] l] eqn:E; [simpl in H; congruence|].
      assert (F : In (s, dt) (filter (fun p => str_eqb (fst p) k)
                                     (choose (line_user rt) lines)))
        by (rewrite E; now left).
      apply filter_In in F. destruct F as [F1 F2]. apply str_eqb_eq in F2.
      simpl in F2. subst. apply in_map_iff. now exists (k, dt).
  - apply Forall_forall. intros k H. apply I in H. destruct H as [[]|H].
    apply in_map_iff in H. destruct H as ([s dt] & <- & H).
    apply In_choose in H. destruct H as (raw & _ & L).
    exact (@line_user_sender rt raw s dt L).
Qed.

(** X4.  The keys of the user table are the senders of the user messages,
    each once, in the order of their first message; a name is a key exactly
    when it sent a message; no key is empty, starts or ends with white
    space, or holds a colon. *)
Theorem sender_keys (rt : Runtime) (bad_words stop_words lines : list str) :
  let ks := keys (user_stats (run rt bad_words stop_words lines)) in
  ks = first_seen (List.map fst (choose (line_user rt) lines)) /\
  NoDup ks /\
  (forall k, In k ks <-> user_times rt lines k <> []) /\
  Forall (fun k => k <> [] /\ no_edge_space k /\ ~ In 58%N k) ks.
Proof. exact (sender_keys_facts rt bad_words stop_words lines). Qed.

(** ** Sums over the transcript *)

Lemma sum_map_app (A : Type) (f : A -> Z) (l1 l2 : list A) :
  sum_map f (l1 ++ l2) = sum_map f l1 + sum_map f l2.
Proof. unfold sum_map. induction l1 as [|x l1 IH]; simpl; [reflexivity | lia]. Qed.

Lemma count_if_app (A : Type) (p : A -> bool) (l1 l2 : list A) :
  count_if p (l1 ++ l2) = count_if p l1 + count_if p l2.
Proof. unfold count_if. rewrite filter_app, length_app. lia. Qed.

Lemma count_if_cons (A : Type) (p : A -> bool) (x : A) (l : list A) :
  count_if p (x :: l) = (if p x then 1 else 0) + count_if p l.
Proof. unfold count_if. simpl. destruct (p x); simpl List.length; lia. Qed.

Lemma count_if_bounds (A : Type) (p : A -> bool) (l : list A) :
  0 <= count_if p l <= Z.of_nat (List.length l).
Proof.
  unfold count_if. pose proof (filter_length_le p l). lia.
Qed.

Lemma split_ws_aux_length (cur s : str) :
  (List.length (split_ws_aux cur s) <=
   List.length s + (if is_empty cur then 0 else 1))%nat.
Proof.
  revert cur; induction s as [|c s IH]; intros cur; simpl.
  - destruct (is_empty cur); simpl; lia.
  - destruct (isspace c).
    + specialize (IH []). simpl in IH. destruct (is_empty cur); simpl; lia.
    + specialize (IH (c :: cur)). simpl in IH. destruct (is_empty cur); lia.
Qed.

Lemma split_ws_length (s : str) :
  Z.of_nat (List.length (split_ws s)) <= len s.
Proof.
  unfold split_ws, len. pose proof (split_ws_aux_length [] s) as H.
  simpl in H. lia.
Qed.

Lemma total_incr (K : Type) (eqb : K -> K -> bool) (c : counter K) (k : K) :
  total (incr eqb c k) = total c + 1.
Proof.
  unfold incr, count.
  induction c as [|[j n] c IH]; simpl; [lia|].
  destruct (eqb k j) eqn:E; simpl; [lia|].
  simpl in IH. rewrite IH. lia.
Qed.

Lemma count_incr_str (c : counter str) (k j : str) :
  count str_eqb (incr str_eqb c k) j =
  count str_eqb c j + (if str_eqb j k then 1 else 0).
Proof.
  unfold incr, count at 1.
  destruct (str_eqb j k) eqn:E.
  - apply str_eqb_eq in E. subst. rewrite (get_put_same _ str_eqb_eq). reflexivity.
  - apply str_eqb_neq in E. rewrite (get_put_other _ str_eqb_eq) by exact E.
    unfold count. lia.
Qed.

Lemma sum_put (K V : Type) (eqb : K -> K -> bool) (f : V -> Z)
      (d : dict K V) (k : K) (v : V) :
  sum_map (fun kv => f (snd kv)) (put eqb d k v) =
  sum_map (fun kv => f (snd kv)) d + f v
  - match get eqb d k with Some o => f o | None => 0 end.
Proof.
  unfold sum_map. induction d as [|[j w] d IH]; simpl; [lia|].
  destruct (eqb k j); simpl; [lia|]. rewrite IH. lia.
Qed.

Lemma user_bodies_snoc (rt : Runtime) (lines : list str) (raw sender : str) :
  user_bodies rt (lines ++ [raw]) sender =
  user_bodies rt lines sender ++
  match line_message rt raw with
  | Some (s, m) => if str_eqb s sender then [m] else []
  | None => []
  end.
Proof.
  unfold user_bodies, choose.
  rewrite flat_map_app, filter_app, map_app. f_equal.
  simpl. destruct (line_message rt raw) as [[s m]|]; [|reflexivity].
  simpl. destruct (str_eqb s sender); reflexivity.
Qed.

Section TotalFacts.
Variable rt : Runtime.
Variables bad_words stop_words : list str.

Local Abbreviation run := (run rt bad_words stop_words).
Local Abbreviation step := (step rt bad_words stop_words).

Lemma user_totals (lines : list str) (sender : str) :
  let bodies := user_bodies rt lines sender in
  match get str_eqb (user_stats (run lines)) sender with
  | Some r =>
      bodies <> [] /\
      messages r = Z.of_nat (List.length bodies) /\
      char_sum r = sum_map len bodies /\
      word_sum r = sum_map (fun m => Z.of_nat (List.length (split_ws m))) bodies /\
      media r = count_if (contains MEDIA_TAG) bodies /\
      deleted r = count_if (fun m => contains (lower rt DELETED_TAG) (lower rt m)) bodies /\
      bad_word r = count_if (bad_word_hit bad_words) bodies
  | None => bodies = []
  end.
Proof.
  cbv zeta.
  induction lines as [|raw lines IH] using rev_ind; [reflexivity|].
  rewrite run_snoc, step_users, user_bodies_snoc. unfold line_message.
  destruct (parsed rt raw) as [[dt content]|];
    [|rewrite app_nil_r; exact IH].
  destruct (classify raw content) as [s message| | |];
    try (rewrite app_nil_r; exact IH).
  destruct (str_eqb s sender) eqn:E.
  - apply str_eqb_eq in E. subst s.
    rewrite (get_put_same _ str_eqb_eq). unfold user_of.
    rewrite length_app, !sum_map_app, !count_if_app, !count_if_cons.
    unfold count_if at 2 4 6. simpl List.length. unfold sum_map at 2 4. simpl fold_right.
    cbn [update_user messages char_sum word_sum media deleted bad_word].
    destruct (get str_eqb (user_stats (run lines)) sender) as [r|].
    + destruct IH as (N & M & C & W & Me & D & B).
      split; [destruct (user_bodies rt lines sender); discriminate|].
      rewrite M, C, W, Me, D, B.
      destruct (contains MEDIA_TAG message),
               (contains (lower rt DELETED_TAG) (lower rt message)),
               (bad_word_hit bad_words message); repeat split; lia.
    + rewrite IH. simpl.
      destruct (contains MEDIA_TAG message),
               (contains (lower rt DELETED_TAG) (lower rt message)),
               (bad_word_hit bad_words message); repeat split; try discriminate;
        unfold count_if, sum_map; simpl; lia.
  - rewrite (get_put_other _ str_eqb_eq), app_nil_r.
    + exact IH.
    + apply str_eqb_neq in E. congruence.
Qed.
End TotalFacts.

(** X5.  The record of a sender holds: as message count the number of the
    sender's messages; as character and word sums the lengths and the word
    counts of their bodies added up; as media, deleted and bad-word counts
    the number of bodies with the media marker, with the deletion marker
    (both lower-cased), and with a blocked word.  A name without a record
    sent no message. *)
Theorem user_record_totals (rt : Runtime) (bad_words stop_words lines : list str)
        (sender : str) :
  let bodies := user_bodies rt lines sender in
  match get str_eqb (user_stats (run rt bad_words stop_words lines)) sender with
  | Some r =>
      bodies <> [] /\
      messages r = Z.of_nat (List.length bodies) /\
      char_sum r = sum_map len bodies /\
      word_sum r = sum_map (fun m => Z.of_nat (List.length (split_ws m))) bodies /\
      media r = count_if (contains MEDIA_TAG) bodies /\
      deleted r = count_if (fun m => contains (lower rt DELETED_TAG) (lower rt m)) bodies /\
      bad_word r = count_if (bad_word_hit bad_words) bodies
  | None => bodies = []
  end.
Proof. apply user_totals. Qed.

Section MoreStepFacts.
Variable rt : Runtime.
Variables bad_words stop_words : list str.

Local Abbreviation step := (step rt bad_words stop_words).
Local Abbreviation apply_class := (apply_class rt bad_words stop_words).

Lemma apply_class_days (st : state) (dt : datetime) (label : str) (c : line_class) :
  messages_per_day (apply_class st dt label c) = messages_per_day st /\
  media_per_day (apply_class st dt label c) =
  match c with
  | UserMessage _ message =>
      if contains MEDIA_TAG message
      then incr str_eqb (media_per_day st) label
      else media_per_day st
  | _ => media_per_day st
  end.
Proof.
  destruct c; simpl; auto.
  unfold on_renamed. destruct (parse_timestamp rt (strip ts_raw)); auto.
  destruct (format_jalali_date rt d) as [[l w] m]. simpl. auto.
Qed.

Lemma step_days (st : state) (raw : str) :
  match parsed rt raw with
  | Some (dt, content) =>
      let label := fst (fst (format_jalali_date rt dt)) in
      messages_per_day (step st raw) = incr str_eqb (messages_per_day st) label /\
      media_per_day (step st raw) =
      match classify raw content with
      | UserMessage _ message =>
          if contains MEDIA_TAG message
          then incr str_eqb (media_per_day st) label
          else media_per_day st
      | _ => media_per_day st
      end
  | None => step st raw = st
  end.
Proof.
  unfold step.
  destruct (parsed rt raw) as [[dt content]|]; [|reflexivity].
  destruct (format_jalali_date rt dt) as [[l w] m]. cbv zeta. simpl fst.
  destruct (apply_class_days (count_line st dt l w m) dt l (classify raw content))
    as (H1 & H2).
  rewrite H1, H2. split; reflexivity.
Qed.

(** Every counted line adds one to the hour histogram and one to the
    per-day counter. *)
Lemma fold_days_total (lines : list str) (st : state) :
  total (messages_per_day st) = total (hour_counts st) ->
  total (messages_per_day (fold_left step lines st)) =
  total (hour_counts (fold_left step lines st)).
Proof.
  revert st; induction lines as [|raw lines IH]; intros st H; [exact H|].
  simpl. apply IH.
  pose proof (step_days st raw) as D. pose proof (step_hists rt bad_words stop_words st raw) as S.
  destruct (parsed rt raw) as [[dt content]|].
  - destruct (format_jalali_date rt dt) as [[l w] m]. cbv zeta in D. simpl fst in D.
    destruct D as (-> & _). destruct S as (-> & _).
    rewrite !total_incr. lia.
  - rewrite D. exact H.
Qed.

Lemma fold_user_bounds (lines : list str) (st : state) :
  let ok := fun d : user_rec =>
    1 <= messages d /\ 0 <= media d <= messages d /\
    0 <= deleted d <= messages d /\ 0 <= bad_word d <= messages d /\
    0 <= word_sum d <= char_sum d in
  Forall (fun kv => ok (snd kv)) (user_stats st) ->
  Forall (fun kv => ok (snd kv)) (user_stats (fold_left step lines st)).
Proof.
  cbv zeta.
  revert st; induction lines as [|raw lines IH]; intros st H; [exact H|].
  simpl. apply IH. rewrite step_users.
  destruct (parsed rt raw) as [[dt content]|]; [|exact H].
  destruct (classify raw content) as [s message| | |]; try exact H.
  apply (Forall_put str_eqb
           (fun d => 1 <= messages d /\ 0 <= media d <= messages d /\
                     0 <= deleted d <= messages d /\ 0 <= bad_word d <= messages d /\
                     0 <= word_sum d <= char_sum d)); [exact H|].
  assert (P : let d := user_of (user_stats st) s in
              0 <= messages d /\ 0 <= media d <= messages d /\
              0 <= deleted d <= messages d /\ 0 <= bad_word d <= messages d /\
              0 <= word_sum d <= char_sum d).
  { unfold user_of. destruct (get str_eqb (user_stats st) s) as [r|] eqn:G.
    - apply (get_In _ str_eqb_eq) in G.
      rewrite Forall_forall in H. specialize (H _ G). simpl in H. simpl. lia.
    - simpl. lia. }
  cbv zeta in P. cbn [update_user messages media deleted bad_word char_sum word_sum].
  pose proof (split_ws_length message). unfold len in *.
  destruct (contains MEDIA_TAG message),
           (contains (lower rt DELETED_TAG) (lower rt message)),
           (bad_word_hit bad_words message); lia.
Qed.

Lemma step_sums (st : state) (raw : str) :
  sum_map (fun kv => messages (snd kv)) (user_stats (step st raw)) =
  sum_map (fun kv => messages (snd kv)) (user_stats st)
  + (if is_some (line_user rt raw) then 1 else 0) /\
  (total (media_per_day st) = sum_map (fun kv => media (snd kv)) (user_stats st) ->
   total (media_per_day (step st raw)) =
   sum_map (fun kv => media (snd kv)) (user_stats (step st raw))).
Proof.
  rewrite step_users. pose proof (step_days st raw) as D. unfold line_user.
  destruct (parsed rt raw) as [[dt content]|];
    [|rewrite D; split; [simpl; lia | auto]].
  cbv zeta in D. destruct D as (_ & D). rewrite D.
  destruct (classify raw content) as [s message| | |];
    try (split; [simpl; lia | auto]).
  rewrite !sum_put. unfold user_of.
  cbn [update_user messages media is_some].
  destruct (get str_eqb (user_stats st) s) as [r|]; split;
    try (simpl; lia); intros H;
    destruct (contains MEDIA_TAG message); rewrite ?total_incr; simpl; lia.
Qed.
End MoreStepFacts.

(** X6.  In every user record the media, deleted and bad-word counts lie
    between 0 and the message count, which is at least 1, and the word sum
    lies between 0 and the character sum. *)
Theorem user_counts_bounded (rt : Runtime) (bad_words stop_words lines : list str) :
  Forall (fun kv =>
            let d := snd kv in
            1 <= messages d /\ 0 <= media d <= messages d /\
            0 <= deleted d <= messages d /\ 0 <= bad_word d <= messages d /\
            0 <= word_sum d <= char_sum d)
         (user_stats (run rt bad_words stop_words lines)).
Proof.
  exact (fold_user_bounds rt bad_words stop_words lines init (Forall_nil _)).
Qed.

Section RunTotals.
Variable rt : Runtime.
Variables bad_words stop_words : list str.

Local Abbreviation step := (step rt bad_words stop_words).

Lemma fold_sums (lines : list str) (st : state) :
  total (media_per_day st) = sum_map (fun kv => media (snd kv)) (user_stats st) ->
  let st' := fold_left step lines st in
  sum_map (fun kv => messages (snd kv)) (user_stats st') =
  sum_map (fun kv => messages (snd kv)) (user_stats st)
  + Z.of_nat (List.length (choose (line_user rt) lines)) /\
  total (media_per_day st') = sum_map (fun kv => media (snd kv)) (user_stats st').
Proof.
  cbv zeta. revert st; induction lines as [|raw lines IH]; intros st H.
  - simpl. split; [lia | exact H].
  - destruct (step_sums rt bad_words stop_words st raw) as (S1 & S2).
    destruct (IH _ (S2 H)) as (I1 & I2). simpl fold_left.
    split; [|exact I2]. rewrite I1, S1. unfold choose. simpl.
    rewrite length_app, Nat2Z.inj_add.
    destruct (line_user rt raw); cbn [is_some List.length];
      change (Z.of_nat 1) with 1; change (Z.of_nat 0) with 0; ring.
Qed.

Lemma fold_hour_total (lines : list str) (st : state) :
  total (hour_counts (fold_left step lines st)) =
  total (hour_counts st) + count_if (fun raw => is_some (parsed rt raw)) lines.
Proof.
  revert st; induction lines as [|raw lines IH]; intros st.
  - unfold count_if. simpl. lia.
  - simpl fold_left. rewrite IH, count_if_cons. cbv beta.
    pose proof (step_hists rt bad_words stop_words st raw) as S.
    destruct (parsed rt raw) as [[dt content]|].
    + destruct (format_jalali_date rt dt) as [[l w] m]. destruct S as (-> & _).
      rewrite total_incr. cbn [is_some]. lia.
    + rewrite S. cbn [is_some]. lia.
Qed.

Lemma line_user_parsed (raw : str) :
  is_some (line_user rt raw) = true -> is_some (parsed rt raw) = true.
Proof. unfold line_user. destruct (parsed rt raw); [reflexivity | discriminate]. Qed.
End RunTotals.

Lemma count_if_split (A : Type) (p q : A -> bool) (l : list A) :
  (forall x, q x = true -> p x = true) ->
  count_if p l = count_if q l + count_if (fun x => p x && negb (q x)) l.
Proof.
  intros H. induction l as [|x l IH]; [reflexivity|].
  rewrite !count_if_cons, IH. cbv beta. specialize (H x).
  destruct (p x), (q x); cbn [andb negb]; try lia.
Qed.

Lemma length_choose (A B : Type) (f : A -> option B) (l : list A) :
  Z.of_nat (List.length (choose f l)) = count_if (fun x => is_some (f x)) l.
Proof.
  unfold choose. induction l as [|x l IH]; [reflexivity|].
  rewrite count_if_cons. cbv beta. cbn [flat_map]. rewrite length_app, Nat2Z.inj_add, IH.
  destruct (f x); cbn [is_some List.length]; lia.
Qed.

(** X7.  The message counts of all users add up to the number of lines
    classified as user messages.  The total the report prints as "Total
    messages" is that sum plus the number of counted lines that are not user
    messages (system lines and dropped payloads).  The per-day message
    counts add up to the same total, and the per-day media counts add up to
    the media counts of all users. *)
Theorem transcript_totals (rt : Runtime) (bad_words stop_words lines : list str) :
  let st := run rt bad_words stop_words lines in
  sum_map (fun kv => messages (snd kv)) (user_stats st)
    = count_if (fun raw => is_some (line_user rt raw)) lines /\
  total (hour_counts st)
    = sum_map (fun kv => messages (snd kv)) (user_stats st)
      + count_if (fun raw => is_some (parsed rt raw) && negb (is_some (line_user rt raw)))
                 lines /\
  total (messages_per_day st) = total (hour_counts st) /\
  total (media_per_day st) = sum_map (fun kv => media (snd kv)) (user_stats st).
Proof.
  cbv zeta. unfold run.
  destruct (fold_sums rt bad_words stop_words lines init eq_refl) as (S1 & S2).
  cbv zeta in S1, S2. rewrite S1, length_choose, fold_hour_total. simpl.
  split; [reflexivity|]. split; [|split; [|exact S2]].
  - apply count_if_split. apply line_user_parsed.
  - rewrite fold_days_total; [|reflexivity]. rewrite fold_hour_total. reflexivity.
Qed.

(** The statistics section raises only when the per-day counter is empty
    while the hour histogram is not. *)
Lemma stats_lines_ok (st : state) :
  total (messages_per_day st) = total (hour_counts st) ->
  exists l, stats_lines st = inl l.
Proof.
  intros H. unfold stats_lines.
  destruct (total (hour_counts st) =? 0) eqn:T; [eauto|].
  destruct (messages_per_day st) as [|[d n] c] eqn:M.
  - simpl in H. rewrite <- H in T. discriminate.
  - destruct (max_by (@snd str Z) (media_per_day st)) as [[md mc]|];
      cbn [max_by min_by];
      destruct (fold_left _ c (d, n)) as [d1 n1];
      destruct (fold_left _ c (d, n)) as [d2 n2];
      simpl List.length; rewrite Nat2Z.inj_succ;
      destruct (Z.eqb_spec (Z.succ (Z.of_nat (List.length c))) 0); try lia; eauto.
Qed.

(** X8.  Whatever the transcript, the word lists and the runtime, the
    reporter prints its report to the end: the [max], [min] and division of
    the statistics section are only reached with a per-day counter that is
    not empty. *)
Theorem report_never_raises (rt : Runtime) (bad_words stop_words lines : list str) :
  exists printed, script rt bad_words stop_words lines = Printed printed.
Proof.
  unfold script, report.
  destruct (stats_lines_ok (run rt bad_words stop_words lines)) as [l E].
  - unfold run. now apply fold_days_total.
  - rewrite E. eauto.
Qed.

Section BucketFacts.
Variable rt : Runtime.
Variables bad_words stop_words : list str.

Local Abbreviation step := (step rt bad_words stop_words).

Lemma fold_buckets (lines : list str) (st : state) (h w m : Z) (label : str) :
  let st' := fold_left step lines st in
  count Z.eqb (hour_counts st') h
    = count Z.eqb (hour_counts st) h
      + counted_with rt (fun dt => hour dt =? h) lines /\
  count Z.eqb (weekday_counts st') w
    = count Z.eqb (weekday_counts st) w
      + counted_with rt (fun dt => snd (fst (format_jalali_date rt dt)) =? w) lines /\
  count Z.eqb (month_counts st') m
    = count Z.eqb (month_counts st) m
      + counted_with rt (fun dt => snd (format_jalali_date rt dt) =? m) lines /\
  count str_eqb (messages_per_day st') label
    = count str_eqb (messages_per_day st) label
      + counted_with rt (fun dt => str_eqb (fst (fst (format_jalali_date rt dt))) label)
                     lines.
Proof.
  cbv zeta. unfold counted_with.
  revert st; induction lines as [|raw lines IH]; intros st.
  - unfold count_if. simpl. lia.
  - simpl fold_left. destruct (IH (step st raw)) as (H1 & H2 & H3 & H4).
    rewrite H1, H2, H3, H4, !count_if_cons. cbv beta. clear H1 H2 H3 H4 IH.
    pose proof (step_hists rt bad_words stop_words st raw) as S.
    pose proof (step_days rt bad_words stop_words st raw) as D.
    destruct (parsed rt raw) as [[dt content]|].
    + destruct (format_jalali_date rt dt) as [[l w'] m']. cbv zeta in D. cbn [fst snd] in D |- *.
      destruct S as (-> & -> & ->). destruct D as (-> & _).
      rewrite !count_incr, count_incr_str.
      rewrite (Z.eqb_sym h), (Z.eqb_sym w), (Z.eqb_sym m).
      replace (str_eqb label l) with (str_eqb l label).
      * repeat split; lia.
      * destruct (str_eqb l label) eqn:E.
        -- apply str_eqb_eq in E. subst. symmetry. apply str_eqb_refl.
        -- symmetry. apply str_eqb_neq. apply str_eqb_neq in E. congruence.
    + rewrite S. repeat split; lia.
Qed.
End BucketFacts.

(** X9.  After a transcript each bucket holds exactly the number of lines
    with a parsed timestamp that fall in it: hour bucket [h] the lines whose
    instant has hour [h], weekday bucket [w] and month bucket [m] those the
    date formatter maps to [w] and [m], and the per-day counter of a label
    those the formatter gives that label; a bucket no line falls in reads
    0. *)
Theorem histogram_buckets (rt : Runtime) (bad_words stop_words lines : list str)
        (h w m : Z) (label : str) :
  let st := run rt bad_words stop_words lines in
  count Z.eqb (hour_counts st) h
    = counted_with rt (fun dt => hour dt =? h) lines /\
  count Z.eqb (weekday_counts st) w
    = counted_with rt (fun dt => snd (fst (format_jalali_date rt dt)) =? w) lines /\
  count Z.eqb (month_counts st) m
    = counted_with rt (fun dt => snd (format_jalali_date rt dt) =? m) lines /\
  count str_eqb (messages_per_day st) label
    = counted_with rt (fun dt => str_eqb (fst (fst (format_jalali_date rt dt))) label)
                   lines.
Proof.
  exact (fold_buckets rt bad_words stop_words lines init h w m label).
Qed.

(** ** Word frequencies *)

Lemma Forall_put_key (K V : Type) (eqb : K -> K -> bool) (P : K * V -> Prop)
      (d : dict K V) (k : K) (v : V) :
  (forall j w, P (j, w) -> P (j, v)) -> P (k, v) ->
  Forall P d -> Forall P (put eqb d k v).
Proof.
  intros Hj Hk H. induction d as [|[j w] d IH]; simpl.
  - constructor; [exact Hk | constructor].
  - inversion H; subst. destruct (eqb k j); constructor; eauto.
Qed.

Lemma In_firstn (A : Type) (n : nat) (l : list A) (x : A) :
  In x (firstn n l) -> In x l.
Proof.
  revert l; induction n as [|n IH]; intros [|y l]; simpl; try tauto.
  intros [H|H]; [now left | right; now apply IH].
Qed.

Section WordFacts.
Variable rt : Runtime.
Variables bad_words stop_words : list str.

Local Abbreviation step := (step rt bad_words stop_words).
Local Abbreviation apply_class := (apply_class rt bad_words stop_words).

Local Abbreviation ranked := (ranked stop_words).

Lemma incr_ranked (c : counter str) (k : str) :
  in_list k stop_words = false -> k <> [] ->
  Forall ranked c -> Forall ranked (incr str_eqb c k).
Proof.
  intros S N H. unfold incr.
  assert (C : 0 <= count str_eqb c k).
  { unfold count. destruct (get str_eqb c k) as [n|] eqn:G; [|lia].
    apply (get_In _ str_eqb_eq) in G. rewrite Forall_forall in H.
    destruct (H _ G) as (_ & _ & B). simpl in B. lia. }
  apply Forall_put_key; [| |exact H].
  - intros j w (A & B & _). unfold ranked. simpl. repeat split; auto. lia.
  - unfold ranked. simpl. repeat split; auto. lia.
Qed.

Lemma incr_all_ranked (ws : list str) (c : counter str) :
  Forall (fun w => in_list w stop_words = false /\ w <> []) ws ->
  Forall ranked c -> Forall ranked (incr_all str_eqb c ws).
Proof.
  unfold incr_all. revert c; induction ws as [|w ws IH]; intros c W H; [exact H|].
  inversion W as [|? ? [A B] W']; subst. simpl. apply IH; [exact W'|].
  now apply incr_ranked.
Qed.

Lemma words_of_ranked (message : str) :
  Forall (fun w => in_list w stop_words = false /\ w <> [])
         (words_of rt stop_words message).
Proof.
  apply Forall_forall. intros w H. unfold words_of in H.
  apply filter_In in H. destruct H as [_ H].
  apply andb_true_iff in H. destruct H as [H1 H2].
  split.
  - now destruct (in_list w stop_words).
  - intros ->. discriminate.
Qed.

Lemma apply_class_words (st : state) (dt : datetime) (label : str) (c : line_class) :
  word_freq_global (apply_class st dt label c) =
  match c with
  | UserMessage _ message =>
      incr_all str_eqb (word_freq_global st) (words_of rt stop_words message)
  | _ => word_freq_global st
  end /\
  group_renames (apply_class st dt label c) =
  match c with
  | GroupRenamed ts_raw changer old_name new_name =>
      match parse_timestamp rt (strip ts_raw) with
      | Some dt_rename =>
          group_renames st ++
          [(fst (fst (format_jalali_date rt dt_rename)),
            strip changer, strip old_name, strip new_name)]
      | None => group_renames st
      end
  | _ => group_renames st
  end.
Proof.
  destruct c; simpl; auto.
  unfold on_renamed. destruct (parse_timestamp rt (strip ts_raw)); auto.
  destruct (format_jalali_date rt d) as [[l w] m]. simpl. auto.
Qed.

Lemma step_words (st : state) (raw : str) :
  word_freq_global (step st raw) =
  match line_message rt raw with
  | Some (_, message) =>
      incr_all str_eqb (word_freq_global st) (words_of rt stop_words message)
  | None => word_freq_global st
  end /\
  group_renames (step st raw) =
  match line_rename rt raw with
  | Some r => group_renames st ++ [r]
  | None => group_renames st
  end.
Proof.
  unfold step, line_message, line_rename.
  destruct (parsed rt raw) as [[dt content]|]; [|split; reflexivity].
  destruct (format_jalali_date rt dt) as [[l w] m].
  destruct (apply_class_words (count_line st dt l w m) dt l (classify raw content))
    as (H1 & H2).
  rewrite H1, H2.
  destruct (classify raw content); try (split; reflexivity).
  destruct (parse_timestamp rt (strip ts_raw)); split; reflexivity.
Qed.

Lemma fold_ranked (lines : list str) (st : state) :
  Forall ranked (word_freq_global st) ->
  Forall ranked (word_freq_global (fold_left step lines st)).
Proof.
  revert st; induction lines as [|raw lines IH]; intros st H; [exact H|].
  simpl. apply IH. destruct (step_words st raw) as [-> _].
  destruct (line_message rt raw) as [[s m]|]; [|exact H].
  apply incr_all_ranked; [apply words_of_ranked | exact H].
Qed.

Lemma fold_renames (lines : list str) (st : state) :
  group_renames (fold_left step lines st) =
  group_renames st ++ choose (line_rename rt) lines.
Proof.
  revert st; induction lines as [|raw lines IH]; intros st.
  - simpl. now rewrite app_nil_r.
  - simpl fold_left. rewrite IH. destruct (step_words st raw) as [_ ->].
    unfold choose. simpl. destruct (line_rename rt raw); [|reflexivity].
    now rewrite <- app_assoc.
Qed.
End WordFacts.

(** X10.  A word the report ranks is an entry of the word counter, is not a
    stop word, is not empty, and was counted at least once. *)
Theorem stop_words_never_ranked (rt : Runtime) (bad_words stop_words lines : list str)
        (w : str) (n : Z) :
  In (WordRow w n) (word_lines (run rt bad_words stop_words lines)) ->
  in_list w stop_words = false /\ w <> [] /\ 1 <= n /\
  In (w, n) (word_freq_global (run rt bad_words stop_words lines)).
Proof.
  unfold word_lines. intros [H|H]; [discriminate|].
  apply in_map_iff in H. destruct H as ([w' n'] & [= -> ->] & H).
  unfold most_common in H. apply In_firstn in H. apply In_sorted_desc in H.
  pose proof (@fold_ranked rt bad_words stop_words lines init (Forall_nil _)) as F.
  rewrite Forall_forall in F. destruct (F _ H) as (A & B & C).
  repeat split; auto.
Qed.

Lemma stop_words_never_ranked_witness :
  in_list (lit "hello") [lit "the"] = false /\ lit "hello" <> [] /\ 1 <= 1 /\
  In (lit "hello", 1) (word_freq_global (run Ref.plain [] [lit "the"] busy_lines)).
Proof.
  apply (@stop_words_never_ranked Ref.plain [] [lit "the"] busy_lines).
  vm_compute. right. left. reflexivity.
Defined.

(** X11.  The rename history is append-only and in transcript order: the
    history after a transcript followed by more lines is the history after
    the transcript, followed by the rename records of the further lines in
    their order. *)
Theorem rename_history_order (rt : Runtime) (bad_words stop_words : list str)
        (earlier later : list str) :
  group_renames (run rt bad_words stop_words (earlier ++ later)) =
  group_renames (run rt bad_words stop_words earlier) ++ choose (line_rename rt) later.
Proof.
  unfold run. rewrite fold_left_app, fold_renames. reflexivity.
Qed.

(** ** The creation record *)

Lemma last_In (A : Type) (l : list A) (d : A) : l <> [] -> In (last l d) l.
Proof.
  induction l as [|x l IH]; [congruence|]. intros _.
  destruct l as [|y l]; [now left|]. right. apply IH. discriminate.
Qed.

Lemma line_creation_shape (rt : Runtime) (raw : str) (g : group_rec) :
  line_creation rt raw = Some g ->
  exists label creator name,
    g = {| created_ts := Some label; created_by := Some creator;
           created_name := Some name |} /\
    name <> [] /\ no_edge_space creator /\ (name = UNNAMED \/ no_edge_space name).
Proof.
  unfold line_creation. destruct (parsed rt raw) as [[dt content]|]; [|discriminate].
  rewrite classify_by_split.
  destruct (split1 COLON content) as [[prefix suffix]|].
  - destruct (is_empty (strip prefix)); discriminate.
  - unfold system_event.
    destruct (Re.match_ RE_CREATED content) as [[m r]|].
    + intros [= <-]. do 3 eexists. split; [reflexivity|].
      destruct (strip (Re.group m 2)) as [|c t] eqn:E; simpl.
      * repeat split; try apply strip_no_edge; [discriminate | now left].
      * repeat split; try apply strip_no_edge; [discriminate|].
        right. rewrite <- E. apply strip_no_edge.
    + destruct (Re.match_ RE_GROUP_RENAME raw) as [[m r]|]; discriminate.
Qed.

(** X12.  The creation record is empty when the transcript has no
    group-created line.  Otherwise it is the record of one of those lines,
    its three fields are set together, the creator has no white space at
    either end, and the group name is never empty: it is the placeholder
    "(unnamed)" or a name without white space at either end. *)
Theorem creation_record_shape (rt : Runtime) (bad_words stop_words lines : list str) :
  let g := group_info (run rt bad_words stop_words lines) in
  match creations rt lines with
  | [] => g = group_info init
  | _ :: _ =>
      In g (creations rt lines) /\
      exists label creator name,
        g = {| created_ts := Some label; created_by := Some creator;
               created_name := Some name |} /\
        name <> [] /\ no_edge_space creator /\ (name = UNNAMED \/ no_edge_space name)
  end.
Proof.
  cbv zeta. unfold run. rewrite fold_group.
  destruct (creations rt lines) as [|g0 gs] eqn:E; [reflexivity|].
  assert (I : In (last (g0 :: gs) (group_info init)) (g0 :: gs))
    by (apply last_In; discriminate).
  split; [exact I|].
  assert (J : In (last (g0 :: gs) (group_info init)) (choose (line_creation rt) lines))
    by (fold (creations rt lines); rewrite E; exact I).
  apply In_choose in J. destruct J as (raw & _ & L).
  exact (@line_creation_shape rt raw _ L).
Qed.

(** ** The loader *)

Lemma existsb_dedupe (p : str -> bool) (ws : list str) :
  existsb p (dedupe ws) = existsb p ws.
Proof.
  induction ws as [|w ws IH]; simpl; [reflexivity|].
  destruct (existsb (str_eqb w) ws) eqn:E; simpl; rewrite IH; [|reflexivity].
  destruct (p w) eqn:P; [|reflexivity]. simpl.
  apply existsb_exists in E. destruct E as (x & H & Q).
  apply str_eqb_eq in Q. subst x. apply existsb_exists. eauto.
Qed.

Lemma existsb_map_filter (A B : Type) (p : B -> bool) (f : A -> B) (q : A -> bool)
      (l : list A) :
  existsb p (List.map f (filter q l)) = existsb (fun x => q x && p (f x)) l.
Proof.
  induction l as [|x l IH]; simpl; [reflexivity|].
  destruct (q x); simpl; now rewrite IH.
Qed.

Lemma In_dedupe (w : str) (ws : list str) : In w (dedupe ws) -> In w ws.
Proof.
  induction ws as [|x ws IH]; simpl; [tauto|].
  destruct (existsb (str_eqb x) ws); simpl; tauto.
Qed.

Lemma NoDup_dedupe (ws : list str) : NoDup (dedupe ws).
Proof.
  induction ws as [|x ws IH]; simpl; [constructor|].
  destruct (existsb (str_eqb x) ws) eqn:E; [exact IH|].
  constructor; [|exact IH]. intros H. apply In_dedupe in H.
  assert (T : existsb (str_eqb x) ws = true)
    by (apply existsb_exists; exists x; split; [exact H | apply str_eqb_refl]).
  congruence.
Qed.

Lemma bad_word_hit_any (bad_words : list str) (message : str) :
  bad_word_hit bad_words message = existsb (fun bw => contains bw message) bad_words.
Proof. unfold bad_word_hit. destruct bad_words; reflexivity. Qed.

(** X13.  With the blocklist as the loader builds it, a message is a hit
    exactly when some line of the blocklist file, stripped, is not empty and
    occurs in the message; a missing file, or a file of blank lines, flags
    nothing.  The loaded words are distinct, not empty and without white
    space at either end. *)
Theorem loaded_blocklist (file : option (list str)) (message : str) :
  bad_word_hit (load_bad_words file) message =
  match file with
  | Some file_lines =>
      existsb (fun l => negb (is_empty (strip l)) && contains (strip l) message)
              file_lines
  | None => false
  end /\
  NoDup (load_bad_words file) /\
  Forall (fun w => w <> [] /\ no_edge_space w) (load_bad_words file).
Proof.
  rewrite bad_word_hit_any. destruct file as [ls|]; simpl.
  - rewrite existsb_dedupe, existsb_map_filter. split; [reflexivity|].
    split; [apply NoDup_dedupe|].
    apply Forall_forall. intros w H. apply In_dedupe in H.
    apply in_map_iff in H. destruct H as (l & <- & H).
    apply filter_In in H. destruct H as [_ H].
    split; [|apply strip_no_edge].
    intros E. rewrite E in H. discriminate.
  - repeat split; constructor.
Qed.

(** ** The order of the user table *)

Section OrderFacts.
Variable A : Type.
Variable key : A -> Z.

Lemma insert_desc_perm (x : A) (l : list A) :
  Permutation (insert_desc key x l) (x :: l).
Proof.
  induction l as [|y l IH]; simpl; [reflexivity|].
  destruct (key y <=? key x); [reflexivity|].
  rewrite IH. apply perm_swap.
Qed.

Lemma insert_desc_sorted (x : A) (l : list A) :
  StronglySorted (fun a b => key b <= key a) l ->
  StronglySorted (fun a b => key b <= key a) (insert_desc key x l).
Proof.
  induction l as [|y l IH]; simpl; intros H.
  - constructor; constructor.
  - inversion H as [|? ? S F]; subst.
    destruct (Z.leb_spec (key y) (key x)).
    + constructor; [exact H|]. constructor; [assumption|].
      rewrite Forall_forall in *. intros z I. specialize (F z I). simpl in F. lia.
    + constructor; [now apply IH|].
      rewrite Forall_forall in *. intros z I.
      apply In_insert_desc in I. destruct I as [->|I]; [lia | now apply F].
Qed.

Lemma insert_desc_stable (v : Z) (x : A) (l : list A) :
  filter (fun z => key z =? v) (insert_desc key x l) =
  filter (fun z => key z =? v) (x :: l).
Proof.
  induction l as [|y l IH]; [reflexivity|]. simpl insert_desc.
  destruct (Z.leb_spec (key y) (key x)); [reflexivity|].
  cbn [filter] in *. rewrite IH.
  destruct (Z.eqb_spec (key y) v), (Z.eqb_spec (key x) v); try reflexivity. lia.
Qed.

Lemma sorted_desc_spec (l : list A) :
  Permutation (sorted_desc key l) l /\
  StronglySorted (fun a b => key b <= key a) (sorted_desc key l) /\
  forall v, filter (fun z => key z =? v) (sorted_desc key l)
            = filter (fun z => key z =? v) l.
Proof.
  induction l as [|x l (P & S & F)]; simpl.
  - repeat split; constructor.
  - split; [|split].
    + rewrite insert_desc_perm. now constructor.
    + now apply insert_desc_sorted.
    + intros v. rewrite insert_desc_stable. cbn [filter]. now rewrite F.
Qed.
End OrderFacts.

(** X14.  The rows of the user table are the user records rearranged: every
    user has exactly one row, the message counts never increase from one row
    to the next, and users with the same message count stay in the order of
    their first message. *)
Theorem user_table_order (rt : Runtime) (bad_words stop_words lines : list str) :
  let users := user_stats (run rt bad_words stop_words lines) in
  let rows := sorted_desc (fun kv => messages (snd kv)) users in
  user_table (run rt bad_words stop_words lines) =
    [ Rule true;
      Text (lit "USER SUMMARY (sorted by messages)");
      Text (lit "Name | Msgs | Media | Del | Bad | AvgChars | AvgWords");
      Rule false ] ++ List.map user_row rows ++ [ Rule true ] /\
  Permutation rows users /\
  NoDup (List.map fst rows) /\
  StronglySorted (fun a b => messages (snd b) <= messages (snd a)) rows /\
  forall n, filter (fun kv => messages (snd kv) =? n) rows
            = filter (fun kv => messages (snd kv) =? n) users.
Proof.
  cbv zeta.
  destruct (sorted_desc_spec (fun kv : str * user_rec => messages (snd kv))
              (user_stats (run rt bad_words stop_words lines))) as (P & S & F).
  split; [reflexivity|]. split; [exact P|]. split; [|split; assumption].
  apply (Permutation_NoDup (l:=List.map fst (user_stats (run rt bad_words stop_words lines)))).
  - apply Permutation_map. now symmetry.
  - apply (sender_keys_facts rt bad_words stop_words lines).
Qed.

(** ** What the word lists can change *)

Lemma get_map_values (K V : Type) (eqb : K -> K -> bool) (f : V -> V)
      (d : dict K V) (k : K) :
  get eqb (List.map (fun kv => (fst kv, f (snd kv))) d) k =
  option_map f (get eqb d k).
Proof.
  induction d as [|[j w] d IH]; simpl; [reflexivity|].
  destruct (eqb k j); [reflexivity | exact IH].
Qed.

Lemma put_map_values (K V : Type) (eqb : K -> K -> bool) (f : V -> V)
      (d : dict K V) (k : K) (v : V) :
  List.map (fun kv => (fst kv, f (snd kv))) (put eqb d k v) =
  put eqb (List.map (fun kv => (fst kv, f (snd kv))) d) k (f v).
Proof.
  induction d as [|[j w] d IH]; simpl; [reflexivity|].
  destruct (eqb k j); simpl; [reflexivity | now rewrite IH].
Qed.

Lemma forget_update (rt : Runtime) (bad1 bad2 : list str) (r1 r2 : user_rec)
      (dt : datetime) (message : str) :
  forget_bad_rec r1 = forget_bad_rec r2 ->
  forget_bad_rec (update_user rt bad1 r1 dt message) =
  forget_bad_rec (update_user rt bad2 r2 dt message).
Proof.
  unfold forget_bad_rec, update_user. cbn [messages media deleted bad_word char_sum
    word_sum first_ts last_ts].
  intros [= E1 E2 E3 E4 E5 E6 E7]. now rewrite E1, E2, E3, E4, E5, E6.
Qed.

Lemma forget_user_of (us1 us2 : dict str user_rec) (s : str) :
  List.map (fun kv => (fst kv, forget_bad_rec (snd kv))) us1 =
  List.map (fun kv => (fst kv, forget_bad_rec (snd kv))) us2 ->
  forget_bad_rec (user_of us1 s) = forget_bad_rec (user_of us2 s).
Proof.
  intros H. unfold user_of.
  pose proof (get_map_values str_eqb forget_bad_rec us1 s) as G1.
  pose proof (get_map_values str_eqb forget_bad_rec us2 s) as G2.
  rewrite H in G1. rewrite G1 in G2.
  destruct (get str_eqb us1 s), (get str_eqb us2 s); cbn [option_map] in G2;
    try discriminate; [congruence | reflexivity].
Qed.

Section Interference.
Variable rt : Runtime.

Lemma step_forget_bad (bad1 bad2 stop_words : list str) (st1 st2 : state) (raw : str) :
  forget_bad st1 = forget_bad st2 ->
  forget_bad (step rt bad1 stop_words st1 raw) =
  forget_bad (step rt bad2 stop_words st2 raw).
Proof.
  intros H. unfold step.
  destruct (parsed rt raw) as [[dt content]|]; [|exact H].
  destruct (format_jalali_date rt dt) as [[l w] m].
  unfold forget_bad in H. injection H as E1 E2 E3 E4 E5 E6 E7 E8 E9 E10.
  destruct (classify raw content) as [s msg| c n | ts c o n |];
    unfold apply_class, forget_bad, on_user_message, on_created, on_renamed, count_line;
    cbn [user_stats hour_counts weekday_counts month_counts word_freq_global
         emoji_freq_global media_per_day messages_per_day group_info group_renames].
  - rewrite !put_map_values.
    rewrite (@forget_update rt bad1 bad2 (user_of (user_stats st1) s)
               (user_of (user_stats st2) s) dt msg
               (@forget_user_of (user_stats st1) (user_stats st2) s E1)).
    now rewrite E1, E2, E3, E4, E5, E6, E7, E8, E9, E10.
  - now rewrite E1, E2, E3, E4, E5, E6, E7, E8, E10.
  - destruct (parse_timestamp rt (strip ts)) as [d|].
    + destruct (format_jalali_date rt d) as [[l' w'] m'].
      cbn [user_stats hour_counts weekday_counts month_counts word_freq_global
           emoji_freq_global media_per_day messages_per_day group_info group_renames].
      now rewrite E1, E2, E3, E4, E5, E6, E7, E8, E9, E10.
    + cbn [user_stats hour_counts weekday_counts month_counts word_freq_global
           emoji_freq_global media_per_day messages_per_day group_info group_renames].
      now rewrite E1, E2, E3, E4, E5, E6, E7, E8, E9, E10.
  - now rewrite E1, E2, E3, E4, E5, E6, E7, E8, E9, E10.
Qed.

Lemma step_forget_words (bad_words stop1 stop2 : list str) (st1 st2 : state) (raw : str) :
  forget_words st1 = forget_words st2 ->
  forget_words (step rt bad_words stop1 st1 raw) =
  forget_words (step rt bad_words stop2 st2 raw).
Proof.
  intros H. unfold step.
  destruct (parsed rt raw) as [[dt content]|]; [|exact H].
  destruct (format_jalali_date rt dt) as [[l w] m].
  unfold forget_words in H. injection H as E1 E2 E3 E4 E6 E7 E8 E9 E10.
  destruct (classify raw content) as [s msg| c n | ts c o n |];
    unfold apply_class, forget_words, on_user_message, on_created, on_renamed, count_line;
    cbn [user_stats hour_counts weekday_counts month_counts word_freq_global
         emoji_freq_global media_per_day messages_per_day group_info group_renames].
  - now rewrite E1, E2, E3, E4, E6, E7, E8, E9, E10.
  - now rewrite E1, E2, E3, E4, E6, E7, E8, E10.
  - destruct (parse_timestamp rt (strip ts)) as [d|].
    + destruct (format_jalali_date rt d) as [[l' w'] m'].
      cbn [user_stats hour_counts weekday_counts month_counts word_freq_global
           emoji_freq_global media_per_day messages_per_day group_info group_renames].
      now rewrite E1, E2, E3, E4, E6, E7, E8, E9, E10.
    + cbn [user_stats hour_counts weekday_counts month_counts word_freq_global
           emoji_freq_global media_per_day messages_per_day group_info group_renames].
      now rewrite E1, E2, E3, E4, E6, E7, E8, E9, E10.
  - now rewrite E1, E2, E3, E4, E6, E7, E8, E9, E10.
Qed.

Lemma fold_forget (lines : list str) :
  (forall bad1 bad2 stop_words st1 st2,
     forget_bad st1 = forget_bad st2 ->
     forget_bad (fold_left (step rt bad1 stop_words) lines st1) =
     forget_bad (fold_left (step rt bad2 stop_words) lines st2)) /\
  (forall bad_words stop1 stop2 st1 st2,
     forget_words st1 = forget_words st2 ->
     forget_words (fold_left (step rt bad_words stop1) lines st1) =
     forget_words (fold_left (step rt bad_words stop2) lines st2)).
Proof.
  induction lines as [|raw lines [IH1 IH2]]; [split; intros; assumption|].
  split; intros; simpl.
  - apply IH1. now apply step_forget_bad.
  - apply IH2. now apply step_forget_words.
Qed.
End Interference.

(** X15.  The blocklist only decides bad-word counts and the stop-word list
    only decides word frequencies: two runs on the same transcript with
    different blocklists agree on everything but the bad-word counts, and
    two runs with different stop-word lists agree on everything but the word
    counter. *)
Theorem word_lists_scope (rt : Runtime) (lines : list str) :
  (forall bad1 bad2 stop_words,
     forget_bad (run rt bad1 stop_words lines) = forget_bad (run rt bad2 stop_words lines)) /\
  (forall bad_words stop1 stop2,
     forget_words (run rt bad_words stop1 lines) = forget_words (run rt bad_words stop2 lines)).
Proof.
  destruct (fold_forget rt lines) as [H1 H2].
  split; intros; [apply H1 | apply H2]; reflexivity.
Qed.

(** ** The statistics section *)

Section ExtremeFacts.
Variable A : Type.
Variable key : A -> Z.

Lemma fold_max_spec (l : list A) (x : A) :
  let m := fold_left (fun best y => if key best <? key y then y else best) l x in
  (m = x \/ In m l) /\ key x <= key m /\ Forall (fun y => key y <= key m) l.
Proof.
  cbv zeta. revert x; induction l as [|y l IH]; intros x; simpl.
  - repeat split; [now left | lia | constructor].
  - destruct (Z.ltb_spec (key x) (key y)).
    + destruct (IH y) as (H1 & H2 & H3). repeat split;
        [right; destruct H1 as [H1|H1]; [left; now symmetry | now right] | lia|].
      constructor; [lia | exact H3].
    + destruct (IH x) as (H1 & H2 & H3). repeat split; [tauto | lia|].
      constructor; [lia | exact H3].
Qed.

Lemma fold_min_spec (l : list A) (x : A) :
  let m := fold_left (fun best y => if key y <? key best then y else best) l x in
  (m = x \/ In m l) /\ key m <= key x /\ Forall (fun y => key m <= key y) l.
Proof.
  cbv zeta. revert x; induction l as [|y l IH]; intros x; simpl.
  - repeat split; [now left | lia | constructor].
  - destruct (Z.ltb_spec (key y) (key x)).
    + destruct (IH y) as (H1 & H2 & H3). repeat split;
        [right; destruct H1 as [H1|H1]; [left; now symmetry | now right] | lia|].
      constructor; [lia | exact H3].
    + destruct (IH x) as (H1 & H2 & H3). repeat split; [tauto | lia|].
      constructor; [lia | exact H3].
Qed.

Lemma max_by_spec (l : list A) (m : A) :
  max_by key l = Some m -> In m l /\ Forall (fun y => key y <= key m) l.
Proof.
  destruct l as [|x l]; simpl; [discriminate|]. intros [= <-].
  destruct (fold_max_spec l x) as (H1 & H2 & H3).
  split; [destruct H1 as [->|H1]; [now left | now right]|].
  constructor; assumption.
Qed.

Lemma min_by_spec (l : list A) (m : A) :
  min_by key l = Some m -> In m l /\ Forall (fun y => key m <= key y) l.
Proof.
  destruct l as [|x l]; simpl; [discriminate|]. intros [= <-].
  destruct (fold_min_spec l x) as (H1 & H2 & H3).
  split; [destruct H1 as [->|H1]; [now left | now right]|].
  constructor; assumption.
Qed.
End ExtremeFacts.

Lemma In_get_NoDup (V : Type) (d : dict str V) (k : str) (v : V) :
  NoDup (keys d) -> In (k, v) d -> get str_eqb d k = Some v.
Proof.
  unfold keys. induction d as [|[j w] d IH]; simpl; [tauto|].
  intros N [H|H].
  - injection H as -> ->. now rewrite str_eqb_refl.
  - inversion N as [|? ? N1 N2]; subst.
    destruct (str_eqb k j) eqn:E; [|now apply IH].
    apply str_eqb_eq in E. subst j. exfalso. apply N1.
    apply in_map_iff. now exists (k, v).
Qed.

Lemma count_nonneg (c : counter str) (k : str) :
  Forall (fun kv => 1 <= snd kv) c -> 0 <= count str_eqb c k.
Proof.
  unfold count. induction c as [|[j n] c IH]; simpl; [lia|].
  intros H. inversion H; subst. destruct (str_eqb k j); [simpl in *; lia | auto].
Qed.

Lemma count_if_ext (A : Type) (p q : A -> bool) (l : list A) :
  (forall x, p x = q x) -> count_if p l = count_if q l.
Proof.
  intros H. unfold count_if. now rewrite (filter_ext p q H).
Qed.

Section DayFacts.
Variable rt : Runtime.
Variables bad_words stop_words : list str.

Local Abbreviation step := (step rt bad_words stop_words).

Lemma fold_day_entries (lines : list str) (st : state) :
  NoDup (keys (messages_per_day st)) ->
  Forall (fun kv => 1 <= snd kv) (messages_per_day st) ->
  NoDup (keys (messages_per_day (fold_left step lines st))) /\
  Forall (fun kv => 1 <= snd kv) (messages_per_day (fold_left step lines st)).
Proof.
  revert st; induction lines as [|raw lines IH]; intros st N F; [now split|].
  simpl. pose proof (step_days rt bad_words stop_words st raw) as D.
  destruct (parsed rt raw) as [[dt content]|]; [|rewrite D; now apply IH].
  cbv zeta in D. destruct D as (D & _). apply IH; rewrite D; unfold incr.
  - rewrite keys_put, is_some_get. now apply NoDup_add_key.
  - apply (Forall_put str_eqb (fun v => 1 <= v)); [exact F|].
    pose proof (count_nonneg (fst (fst (format_jalali_date rt dt))) F). lia.
Qed.
End DayFacts.

(** X16.  The statistics section is empty when no line was counted.
    Otherwise it prints the number of counted lines as total; as most active
    day a day label with its exact number of counted lines, which no label
    exceeds; as least active day a label with its exact number, at least 1,
    below which no label with a counted line falls; and as average the total
    over the number of distinct labels, each of which has a counted line. *)
Theorem daily_statistics (rt : Runtime) (bad_words stop_words lines : list str) :
  let st := run rt bad_words stop_words lines in
  let per_day := fun label =>
    counted_with rt (fun dt => str_eqb (fst (fst (format_jalali_date rt dt))) label) lines in
  let total_lines := counted_with rt (fun _ => true) lines in
  if total_lines =? 0 then stats_lines st = inl []
  else
    exists media_day media_cnt max_day min_day,
      stats_lines st =
        inl [ Text (lit "Overall Message Stats:");
              TotalLine total_lines;
              MostMediaLine media_day media_cnt;
              MostActiveLine max_day (per_day max_day);
              LeastActiveLine min_day (per_day min_day);
              AverageLine (Quot total_lines
                                (Z.of_nat (List.length (messages_per_day st)))) ] /\
      1 <= per_day min_day /\
      (forall label, per_day label <= per_day max_day) /\
      (forall label, per_day label = 0 \/ per_day min_day <= per_day label) /\
      NoDup (keys (messages_per_day st)) /\
      (forall label, In label (keys (messages_per_day st)) <-> 1 <= per_day label).
Proof.
  cbv zeta.
  set (st := run rt bad_words stop_words lines).
  assert (T : total (hour_counts st) = counted_with rt (fun _ => true) lines).
  { unfold st, run. rewrite fold_hour_total. simpl. unfold counted_with.
    apply count_if_ext. intros raw. now destruct (parsed rt raw) as [[dt c]|]. }
  assert (TD : total (messages_per_day st) = total (hour_counts st))
    by (unfold st, run; now apply fold_days_total).
  destruct (@fold_day_entries rt bad_words stop_words lines init (NoDup_nil _)
              (Forall_nil _)) as [N F].
  fold (run rt bad_words stop_words lines) in N, F. fold st in N, F.
  assert (B : forall label,
             count str_eqb (messages_per_day st) label =
             counted_with rt (fun dt => str_eqb (fst (fst (format_jalali_date rt dt)))
                                                label) lines).
  { intros label.
    destruct (@fold_buckets rt bad_words stop_words lines init 0 0 0 label)
      as (_ & _ & _ & H). exact H. }
  assert (V : forall d n, In (d, n) (messages_per_day st) ->
                          count str_eqb (messages_per_day st) d = n).
  { intros d n H. unfold count. now rewrite (@In_get_NoDup Z (messages_per_day st) d n N H). }
  unfold stats_lines. rewrite T.
  destruct (counted_with rt (fun _ => true) lines =? 0) eqn:Z0; [reflexivity|].
  destruct (max_by (@snd str Z) (messages_per_day st)) as [[dmax nmax]|] eqn:MX.
  2:{ destruct (messages_per_day st); [|discriminate]. simpl in TD. lia. }
  destruct (min_by (@snd str Z) (messages_per_day st)) as [[dmin nmin]|] eqn:MN.
  2:{ destruct (messages_per_day st); discriminate. }
  apply max_by_spec in MX. destruct MX as [MX1 MX2].
  apply min_by_spec in MN. destruct MN as [MN1 MN2].
  rewrite Forall_forall in MX2, MN2, F.
  assert (L : (Z.of_nat (List.length (messages_per_day st)) =? 0) = false).
  { destruct (messages_per_day st); [contradiction | reflexivity]. }
  rewrite L.
  destruct (match max_by (@snd str Z) (media_per_day st) with
            | Some kv => kv
            | None => (lit "-", 0)
            end) as [md mc].
  exists md, mc, dmax, dmin. rewrite <- !B, (V _ _ MX1), (V _ _ MN1).
  split; [reflexivity|].
  assert (C : forall label,
             count str_eqb (messages_per_day st) label = 0 /\
             ~ In label (keys (messages_per_day st)) \/
             In (label, count str_eqb (messages_per_day st) label) (messages_per_day st)).
  { intros label. unfold count.
    destruct (get str_eqb (messages_per_day st) label) as [v|] eqn:G.
    - right. now apply (get_In _ str_eqb_eq).
    - left. split; [reflexivity|]. intros I. unfold keys in I.
      apply in_map_iff in I. destruct I as ([k v] & E & I). simpl in E. subst k.
      rewrite (@In_get_NoDup Z (messages_per_day st) label v N I) in G. discriminate. }
  pose proof (F _ MN1) as F1. pose proof (MX2 _ MN1) as F2. simpl in F1, F2.
  split; [exact F1|]. split; [|split; [|split; [exact N|]]].
  - intros label. rewrite <- B. destruct (C label) as [[-> _]|I]; [lia|].
    exact (MX2 _ I).
  - intros label. rewrite <- B. destruct (C label) as [[-> _]|I]; [now left|].
    right. exact (MN2 _ I).
  - intros label. rewrite <- B. destruct (C label) as [[E K]|I].
    + rewrite E. split; [contradiction | lia].
    + split; [intros _; exact (F _ I)|]. intros _. unfold keys.
      apply in_map_iff. eexists. split; [|exact I]. reflexivity.
Qed.

(** ** Day labels *)

Lemma digit_inj (a b : Z) : digit a = digit b -> a mod 10 = b mod 10.
Proof.
  unfold digit. intros H.
  pose proof (Z.mod_pos_bound a 10). pose proof (Z.mod_pos_bound b 10).
  apply (f_equal Z.of_N) in H. rewrite !Z2N.id in H by lia. lia.
Qed.

(** X17.  Without the Jalali package two instants get the same day label
    exactly when they fall on the same calendar day, so the per-day counters
    are per calendar day. *)
Theorem day_label_injective (a b : datetime) :
  valid_datetime a = true -> valid_datetime b = true ->
  (strftime_ymd a = strftime_ymd b <->
   year a = year b /\ month a = month b /\ day a = day b).
Proof.
  intros Va Vb.
  destruct (valid_datetime_fields a Va) as (Ma & _ & _ & Da & Ya).
  destruct (valid_datetime_fields b Vb) as (Mb & _ & _ & Db & Yb).
  assert (Da' : day a <= 31)
    by (unfold days_in_month in Da;
        destruct (month a =? 2), (is_leap (year a)),
                 ((month a =? 4) || (month a =? 6) || (month a =? 9) || (month a =? 11));
        lia).
  assert (Db' : day b <= 31)
    by (unfold days_in_month in Db;
        destruct (month b =? 2), (is_leap (year b)),
                 ((month b =? 4) || (month b =? 6) || (month b =? 9) || (month b =? 11));
        lia).
  split.
  - unfold strftime_ymd, zfill4, zfill2. change (lit "/") with [47%N].
    cbn [app]. intros H.
    injection H as Y3 Y2 Y1 Y0 M1 M0 D1 D0.
    apply digit_inj in Y3, Y2, Y1, Y0, M1, M0, D1, D0.
    repeat split.
    + clear - Y3 Y2 Y1 Y0 Ya Yb. Z.div_mod_to_equations. lia.
    + clear - M1 M0 Ma Mb. Z.div_mod_to_equations. lia.
    + clear - D1 D0 Da Da' Db Db'. Z.div_mod_to_equations. lia.
  - intros (Y & M & D). unfold strftime_ymd. now rewrite Y, M, D.
Qed.

Lemma day_label_injective_witness :
  strftime_ymd (mk_datetime 2020 11 7 9 53) = strftime_ymd (mk_datetime 2020 11 7 21 10).
Proof.
  apply (proj2 (@day_label_injective (mk_datetime 2020 11 7 9 53)
                                     (mk_datetime 2020 11 7 21 10) eq_refl eq_refl)).
  repeat split.
Defined.

(** ** Histograms and the calendar mode *)

Section TwoRuntimes.
Variables rt1 rt2 : Runtime.
Hypothesis same_strptime : forall data fmt, strptime rt1 data fmt = strptime rt2 data fmt.
Hypothesis ok1 : RuntimeOk rt1.
Hypothesis ok2 : RuntimeOk rt2.

Lemma parse_timestamp_same (raw_ts : str) :
  parse_timestamp rt1 raw_ts = parse_timestamp rt2 raw_ts.
Proof.
  unfold parse_timestamp. generalize formats as fs.
  induction fs as [|fmt fs IH]; simpl; [reflexivity|].
  rewrite same_strptime, IH. reflexivity.
Qed.

Lemma parsed_same (raw : str) : parsed rt1 raw = parsed rt2 raw.
Proof.
  unfold parsed. destruct (contains SEP raw); simpl; [|reflexivity].
  destruct (split1 SEP raw) as [[ts c]|]; [|reflexivity].
  now rewrite parse_timestamp_same.
Qed.

Lemma fold_same_hists (bad1 bad2 stop1 stop2 lines : list str) (st1 st2 : state) :
  hour_counts st1 = hour_counts st2 ->
  weekday_counts st1 = weekday_counts st2 ->
  hour_counts (fold_left (step rt1 bad1 stop1) lines st1) =
  hour_counts (fold_left (step rt2 bad2 stop2) lines st2) /\
  weekday_counts (fold_left (step rt1 bad1 stop1) lines st1) =
  weekday_counts (fold_left (step rt2 bad2 stop2) lines st2).
Proof.
  revert st1 st2; induction lines as [|raw lines IH]; intros st1 st2 H W;
    [now split|].
  simpl. 
  pose proof (step_hists rt1 bad1 stop1 st1 raw) as S1.
  pose proof (step_hists rt2 bad2 stop2 st2 raw) as S2.
  pose proof (@parsed_valid rt1 ok1 raw) as V1.
  rewrite <- parsed_same in S2.
  destruct (parsed rt1 raw) as [[dt content]|].
  - specialize (V1 dt content eq_refl).
    destruct (format_jalali_date_spec ok1 dt V1) as (W1 & _).
    destruct (format_jalali_date_spec ok2 dt V1) as (W2 & _).
    destruct (format_jalali_date rt1 dt) as [[l1 w1] m1].
    destruct (format_jalali_date rt2 dt) as [[l2 w2] m2].
    simpl in W1, W2. destruct S1 as (A1 & B1 & _). destruct S2 as (A2 & B2 & _).
    apply IH; [rewrite A1, A2, H | rewrite B1, B2, W, W1, W2]; reflexivity.
  - rewrite S1, S2. now apply IH.
Qed.
End TwoRuntimes.

(** X18.  The hour and weekday histograms do not depend on the calendar
    mode: two runtimes that parse timestamps alike and meet the contract,
    one with and one without the Jalali package, fill the same hour and
    weekday buckets, whatever the word lists. *)
Theorem histograms_mode_independent (rt1 rt2 : Runtime)
        (bad1 bad2 stop1 stop2 lines : list str) :
  (forall data fmt, strptime rt1 data fmt = strptime rt2 data fmt) ->
  RuntimeOk rt1 -> RuntimeOk rt2 ->
  hour_counts (run rt1 bad1 stop1 lines) = hour_counts (run rt2 bad2 stop2 lines) /\
  weekday_counts (run rt1 bad1 stop1 lines) = weekday_counts (run rt2 bad2 stop2 lines).
Proof.
  intros S ok1 ok2.
  exact (@fold_same_hists rt1 rt2 S ok1 ok2 bad1 bad2 stop1 stop2 lines init init
           eq_refl eq_refl).
Qed.

Lemma histograms_mode_independent_witness :
  hour_counts (run Ref.plain [] [] busy_lines)
    = hour_counts (run Ref.full [lit "badword"] [lit "the"] busy_lines) /\
  weekday_counts (run Ref.plain [] [] busy_lines)
    = weekday_counts (run Ref.full [lit "badword"] [lit "the"] busy_lines).
Proof.
  apply (@histograms_mode_independent Ref.plain Ref.full [] [lit "badword"] []
           [lit "the"] busy_lines).
  - intros data fmt. reflexivity.
  - exact ref_plain_ok.
  - exact ref_full_ok.
Defined.

(** ** Emoji *)

Section EmojiFacts.
Variable rt : Runtime.
Variables bad_words stop_words : list str.

Local Abbreviation step := (step rt bad_words stop_words).
Local Abbreviation apply_class := (apply_class rt bad_words stop_words).

Lemma incr_emoji (P : char -> Prop) (c : counter char) (k : char) :
  P k ->
  Forall (fun kv => P (fst kv) /\ 1 <= snd kv) c ->
  Forall (fun kv => P (fst kv) /\ 1 <= snd kv) (incr N.eqb c k).
Proof.
  intros Pk H. unfold incr.
  assert (C : 0 <= count N.eqb c k).
  { unfold count. destruct (get N.eqb c k) as [n|] eqn:G; [|lia].
    apply (get_In _ N.eqb_eq) in G. rewrite Forall_forall in H.
    destruct (H _ G) as (_ & B). simpl in B. lia. }
  apply Forall_put_key; [| |exact H].
  - intros j w (A & _). simpl. split; [exact A | lia].
  - simpl. split; [exact Pk | lia].
Qed.

Lemma apply_class_emoji (st : state) (dt : datetime) (label : str) (c : line_class) :
  emoji_freq_global (apply_class st dt label c) =
  match c with
  | UserMessage _ message =>
      incr_all N.eqb (emoji_freq_global st) (emoji_list rt message)
  | _ => emoji_freq_global st
  end.
Proof.
  destruct c; simpl; auto.
  unfold on_renamed. destruct (parse_timestamp rt (strip ts_raw)); auto.
  destruct (format_jalali_date rt d) as [[l w] m]. reflexivity.
Qed.

Lemma fold_emoji (lines : list str) (st : state) :
  let P := fun e => match emoji rt with
                    | Some emoji_data => emoji_data e
                    | None => EMOJI_PATTERN e
                    end = true in
  Forall (fun kv => P (fst kv) /\ 1 <= snd kv) (emoji_freq_global st) ->
  Forall (fun kv => P (fst kv) /\ 1 <= snd kv)
         (emoji_freq_global (fold_left step lines st)).
Proof.
  cbv zeta. revert st; induction lines as [|raw lines IH]; intros st H; [exact H|].
  simpl. apply IH. unfold step.
  destruct (parsed rt raw) as [[dt content]|]; [|exact H].
  destruct (format_jalali_date rt dt) as [[l w] m].
  rewrite apply_class_emoji.
  destruct (classify raw content) as [s message| | |]; try exact H.
  cbn [count_line emoji_freq_global].
  assert (E : Forall (fun e => match emoji rt with
                               | Some emoji_data => emoji_data e
                               | None => EMOJI_PATTERN e
                               end = true) (emoji_list rt message)).
  { apply Forall_forall. intros e I. unfold emoji_list in I.
    destruct (emoji rt); apply filter_In in I; tauto. }
  unfold incr_all. revert H E. generalize (emoji_freq_global st) as c.
  induction (emoji_list rt message) as [|e es IHe]; intros c H E; [exact H|].
  inversion E; subst. simpl. apply IHe; [|assumption].
  apply (incr_emoji (fun e => match emoji rt with
                              | Some emoji_data => emoji_data e
                              | None => EMOJI_PATTERN e
                              end = true)); assumption.
Qed.
End EmojiFacts.

(** X19.  An emoji the report ranks was counted at least once and passed
    the membership test of the mode: the table of the emoji package when it
    is installed, the code point range U+1F300 to U+1FAFF when it is
    not. *)
Theorem emoji_rows (rt : Runtime) (bad_words stop_words lines : list str)
        (e : char) (n : Z) :
  In (EmojiRow e n) (emoji_lines (run rt bad_words stop_words lines)) ->
  match emoji rt with
  | Some emoji_data => emoji_data e
  | None => EMOJI_PATTERN e
  end = true /\ 1 <= n.
Proof.
  unfold emoji_lines.
  pose proof (@fold_emoji rt bad_words stop_words lines init (Forall_nil _)) as F.
  cbv zeta in F. fold (run rt bad_words stop_words lines) in F.
  destruct (emoji_freq_global (run rt bad_words stop_words lines)) as [|kv c] eqn:E;
    [intros []|].
  intros [H|H]; [discriminate|].
  apply in_map_iff in H. destruct H as ([e' n'] & [= -> ->] & H).
  unfold most_common in H. apply In_firstn in H. apply In_sorted_desc in H.
  rewrite Forall_forall in F. exact (F _ H).
Qed.

Lemma emoji_rows_witness :
  EMOJI_PATTERN 128512%N = true /\ 1 <= 2.
Proof.
  apply (@emoji_rows Ref.plain [] []
           [lit "11/7/20, 9:53 AM - Alice: hi " ++ [128512%N; 128512%N; 9731%N]]
           128512%N 2).
  vm_compute. right. left. reflexivity.
Defined.
